(** * AppriseLocale: language detection and scoped translation switching

    A shallow embedding of [apprise/AppriseLocale.py]: the locale regular
    expression, [detect_language], the module level import fallback,
    [LazyTranslation], the [AppriseLocale] constructor, the generator behind
    [lang_at] together with the context manager protocol that drives it, and
    the pickle hooks.

    Conventions of the model.
    - A Python [str] is a [string]; a character is a code point below 256 and
      [lower], whitespace and the letter classes are the ones Python applies
      to these code points.
    - [None] or any other value that is not a [str] is kept apart from
      strings by [pyobj].
    - An exception is its class together with the place that created it; two
      exceptions are the same object exactly when both agree.
    - Everything outside the file (environment, OS locale, the gettext
      module, the [i18n] directory) is a field of [Host] or [GettextModule]. *)

From Stdlib Require Import NArith Ascii String.
From stdpp Require Import base option gmap strings list fin_maps.

Open Scope string_scope.

(** ** Characters and strings as Python sees them *)

Module Str.

Definition code (c : ascii) : N := N_of_ascii c.

Definition between (lo hi : N) (c : ascii) : bool :=
  ((lo <=? code c) && (code c <=? hi))%N.

(** [str.lower] on one code point below 256: the ASCII capitals and the
    Latin-1 capitals other than the multiplication sign move up by 32. *)
Definition lower_char (c : ascii) : ascii :=
  if between 65 90 c || (between 192 222 c && negb (code c =? 215)%N)
  then ascii_of_N (code c + 32)
  else c.

Fixpoint lower (s : string) : string :=
  match s with
  | EmptyString => EmptyString
  | String c s' => String (lower_char c) (lower s')
  end.

(** [s[0:2]] *)
Definition slice_0_2 (s : string) : string := substring 0 2 s.

(** Truth value of a string: [if s:] *)
Definition truthy (s : string) : bool :=
  match s with EmptyString => false | String _ _ => true end.

(** Truth value of a value that is [None] or a string. *)
Definition truthy_opt (o : option string) : bool :=
  match o with None => false | Some s => truthy s end.

(** What [\s] matches among the code points below 256. *)
Definition is_space (c : ascii) : bool :=
  between 9 13 c || between 28 32 c || (code c =? 133)%N || (code c =? 160)%N.

Definition is_ascii_lower (c : ascii) : bool := between 97 122 c.
Definition is_ascii_alpha (c : ascii) : bool := between 65 90 c || between 97 122 c.

End Str.

(** ** The regular expressions of the module

  A backtracking matcher for the constructs [_local_re] is written with:
  character classes, counted and greedy repetition of a class, sequence,
  ordered alternative, greedy option and (named) groups.  Alternatives are
  tried left to right and a greedy construct tries the longer match first,
  as [re] does. *)

Module Re.

Inductive cls :=
| Space                       (* \s *)
| Dot                         (* .  (no DOTALL) *)
| Range (lo hi : ascii)       (* [lo-hi] *)
| OneOf (cs : list ascii)     (* [abc] or an escaped literal *)
| Union (c1 c2 : cls).        (* [..c1..c2..] *)

Inductive regex :=
| Bol                                   (* ^ *)
| One (c : cls)                         (* c *)
| Rep (c : cls) (n : nat)               (* c{n} *)
| Star (c : cls)                        (* c* *)
| Plus (c : cls)                        (* c+ *)
| Cat (r1 r2 : regex)                   (* r1r2 *)
| Alt (r1 r2 : regex)                   (* r1|r2 *)
| Opt (r : regex)                       (* (r)? as a quantifier only *)
| Group (name : option string) (r : regex).  (* (r) and (?P<name>r) *)

Fixpoint cls_test (c : cls) (a : ascii) : bool :=
  match c with
  | Space => Str.is_space a
  | Dot => negb (Str.code a =? 10)%N
  | Range lo hi => Str.between (Str.code lo) (Str.code hi) a
  | OneOf cs => bool_decide (a ∈ cs)
  | Union c1 c2 => cls_test c1 a || cls_test c2 a
  end.

(** Under [re.IGNORECASE] a character also matches through its lower case
    form. *)
Definition cls_match (ignorecase : bool) (c : cls) (a : ascii) : bool :=
  cls_test c a || (ignorecase && cls_test c (Str.lower_char a)).

(** Groups that took part in the match, by name. *)
Abbreviation captures := (gmap string string).

(** A position in the subject: how many characters were consumed and what
    is left. *)
Abbreviation cont := (nat → string → captures → option captures).

Fixpoint rep (p : ascii → bool) (n : nat) (pos : nat) (s : string)
    (k : cont) (g : captures) : option captures :=
  match n with
  | O => k pos s g
  | S n' =>
      match s with
      | String a s' => if p a then rep p n' (S pos) s' k g else None
      | EmptyString => None
      end
  end.

Fixpoint star (p : ascii → bool) (pos : nat) (s : string)
    (k : cont) (g : captures) : option captures :=
  match s with
  | String a s' =>
      if p a then
        match star p (S pos) s' k g with
        | Some g' => Some g'
        | None => k pos s g
        end
      else k pos s g
  | EmptyString => k pos s g
  end.

Definition set_group (name : option string) (text : string) (g : captures)
    : captures :=
  match name with
  | Some n => <[n := text]> g
  | None => g
  end.

Fixpoint run (ic : bool) (r : regex) (pos : nat) (s : string)
    (k : cont) (g : captures) : option captures :=
  match r with
  | Bol => if decide (pos = 0) then k pos s g else None
  | One c => rep (cls_match ic c) 1 pos s k g
  | Rep c n => rep (cls_match ic c) n pos s k g
  | Star c => star (cls_match ic c) pos s k g
  | Plus c => rep (cls_match ic c) 1 pos s (fun pos' s' => star (cls_match ic c) pos' s' k) g
  | Cat r1 r2 => run ic r1 pos s (fun pos' s' => run ic r2 pos' s' k) g
  | Alt r1 r2 =>
      match run ic r1 pos s k g with
      | Some g' => Some g'
      | None => run ic r2 pos s k g
      end
  | Opt r' =>
      match run ic r' pos s k g with
      | Some g' => Some g'
      | None => k pos s g
      end
  | Group name r' =>
      run ic r' pos s
        (fun pos' s' g' => k pos' s' (set_group name (substring 0 (pos' - pos) s) g'))
        g
  end.

(** [pattern.match(s)]: anchored at the start, any end; the result is the
    groups of the first match in priority order. *)
Definition match_ (ic : bool) (r : regex) (s : string) : option captures :=
  run ic r 0 s (fun _ _ g => Some g) ∅.

End Re.

(** ** Exceptions and results *)

(** The exception classes that occur.  [OSError] stands for the class and
    its subclasses ([IOError] is the same class, [FileNotFoundError] a
    subclass). *)
Inductive exc_class :=
| OSError | KeyError | TypeError | ValueError | AttributeError | NameError
| RuntimeError | GeneratorExit.

(** Where an exception object was created. *)
Inductive site :=
| Line (n : nat)        (* a line of AppriseLocale.py *)
| Body                  (* the body of a [with] statement *)
| Library               (* gettext, locale *)
| Contextlib            (* contextlib's generator context manager *)
| Interpreter.          (* the generator protocol itself *)

Record exc := Exc { exc_cls : exc_class; exc_site : site }.

#[global] Instance exc_class_eq_dec : EqDecision exc_class.
Proof. solve_decision. Defined.
#[global] Instance site_eq_dec : EqDecision site.
Proof. solve_decision. Defined.
#[global] Instance exc_eq_dec : EqDecision exc.
Proof. solve_decision. Defined.

(** [isinstance(e, classes)] *)
Definition isinstance (e : exc) (classes : list exc_class) : bool :=
  bool_decide (exc_cls e ∈ classes).

Inductive Res (A : Type) :=
| Ret (a : A)
| Raise (e : exc).
Arguments Ret {A} a.
Arguments Raise {A} e.

(** ** Values handed to the module *)

Inductive pyobj :=
| PyNone
| PyStr (s : string)
| PyInt (z : Z).

(** ** The host: environment and OS locale *)

Record Host := {
  (** [os.environ] *)
  environ : gmap string string;
  (** [None] when [ctypes] has no [windll]; otherwise the value of
      [windll.kernel32.GetUserDefaultUILanguage()] *)
  windll : option Z;
  (** [locale.windows_locale] *)
  windows_locale : gmap Z string;
  (** [locale.getlocale()[0]] *)
  getlocale_0 : Res (option string)
}.

(** ** [AppriseLocale._local_re] and [AppriseLocale.detect_language] *)

Module Locale.

Import Re.

Definition az : cls := Range "a" "z".

(** [^\s*(?P<lang>[a-z]{2})([_:]((?P<country>[a-z]{2}))?(\.(?P<enc>[a-z0-9]+))?|.+)?] *)
Definition _local_re : regex :=
  Cat Bol
 (Cat (Star Space)
 (Cat (Group (Some "lang") (Rep az 2))
      (Opt (Group None
         (Alt (Cat (One (OneOf ["_"; ":"]%char))
              (Cat (Opt (Group None (Group (Some "country") (Rep az 2))))
                   (Opt (Group None
                      (Cat (One (OneOf ["."]%char))
                           (Group (Some "enc") (Plus (Union az (Range "0" "9")))))))))
              (Plus Dot)))))).

(** [_local_re.match(localename)], compiled with [re.IGNORECASE] *)
Definition _local_re_match (localename : string) : option (gmap string string) :=
  match_ true _local_re localename.

Definition posix_variables : list string :=
  ["LC_ALL"; "LC_CTYPE"; "LANG"; "LANGUAGE"].

(** The loop of lines 209-214 over the variables that are left. *)
Fixpoint posix_lookup (environ : gmap string string) (variables : list string)
    : option string :=
  match variables with
  | [] => None
  | variable :: rest =>
      match environ !! variable with
      | Some localename =>
          if Str.truthy localename then
            match _local_re_match localename with
            | Some result =>
                if Str.truthy_opt (result !! "lang")
                then Str.lower <$> (result !! "lang")
                else posix_lookup environ rest
            | None => posix_lookup environ rest
            end
          else posix_lookup environ rest
      | None => posix_lookup environ rest
      end
  end.

(** Lines 217-228: [Some] is the value returned at line 224, [None] means
    that control goes on to line 231 (no [windll], or the [KeyError] of the
    table lookup was caught). *)
Definition windows_lookup (h : Host) : option string :=
  match windll h with
  | Some langid =>
      match windows_locale h !! langid with
      | Some lang => Some (Str.lower (Str.slice_0_2 lang))
      | None => None
      end
  | None => None
  end.

(** Line 245: [None if not lang else lang[0:2].lower()] *)
Definition line_245 (lang : option string) : option string :=
  match lang with
  | Some s => if Str.truthy s then Some (Str.lower (Str.slice_0_2 s)) else None
  | None => None
  end.

(** The warning of line 241 goes to the logger, which the model does not
    track. *)
Definition detect_language (h : Host) (lang : pyobj) (detect_fallback : bool)
    : Res (option string) :=
  match lang with
  | PyStr s => Ret (line_245 (Some s))
  | _ =>
      if negb detect_fallback then Ret None
      else
        match posix_lookup (environ h) posix_variables with
        | Some code => Ret (Some code)
        | None =>
            match windows_lookup h with
            | Some code => Ret (Some code)
            | None =>
                match getlocale_0 h with
                | Ret lang' => Ret (line_245 lang')
                | Raise e =>
                    if isinstance e [TypeError] then Ret None else Raise e
                end
            end
        end
  end.

End Locale.

(** ** gettext, [builtins] and the module body *)

(** A loaded translation object ([GNUTranslations]): its message table. *)
Abbreviation catalog := (gmap string string).

(** [c.gettext(message)] *)
Definition catalog_gettext (c : catalog) (message : string) : string :=
  default message (c !! message).

(** What [builtins.__dict__['_']] is bound to. *)
Inductive underscore :=
| Unbound
| Identity                      (* lambda x: x *)
| BoundGettext (c : catalog).   (* the [gettext] method of [c] *)

(** The process wide state: the installed [_], and as a history variable
    every catalog [install()] was called on, latest first. *)
Record Globals := {
  installed : underscore;
  install_log : list catalog
}.

(** [c.install()] *)
Definition install (c : catalog) (g : Globals) : Globals :=
  {| installed := BoundGettext c; install_log := c :: install_log g |}.

(** [_(text)] *)
Definition call_underscore (g : Globals) (text : string) : Res string :=
  match installed g with
  | Unbound => Raise (Exc NameError Body)
  | Identity => Ret text
  | BoundGettext c => Ret (catalog_gettext c text)
  end.

(** The part of the [gettext] module that the file calls, with [DOMAIN] and
    [LOCALE_DIR] fixed. *)
Record GettextModule := {
  (** [gettext.translation(DOMAIN, localedir=LOCALE_DIR, languages=[l])] *)
  translation : option string → Res catalog;
  (** the object that [gettext.install(DOMAIN, localedir=LOCALE_DIR)]
      finds and installs *)
  install_default : catalog;
  (** [gettext.gettext(message)] *)
  gettext_gettext : string → string
}.

(** The module's global names after its body ran. *)
Record ModuleGlobals := {
  GETTEXT_LOADED : bool;
  gettext : option GettextModule
}.

(** Lines 48-64.  [importable] is what [import gettext] finds: [None] makes
    it raise [ImportError]. *)
Definition module_body (importable : option GettextModule) (g : Globals)
    : ModuleGlobals * Globals :=
  match importable with
  | Some gt =>
      ({| GETTEXT_LOADED := true; gettext := Some gt |},
       install (install_default gt) g)
  | None =>
      ({| GETTEXT_LOADED := false; gettext := None |},
       {| installed := Identity; install_log := install_log g |})
  end.

(** The name [gettext] evaluated at [line], then [.translation(...)]. *)
Definition gettext_translation (m : ModuleGlobals) (line : nat)
    (language : option string) : Res catalog :=
  match gettext m with
  | Some gt => translation gt language
  | None => Raise (Exc NameError (Line line))
  end.

(** ** [LazyTranslation] *)

Record LazyTranslation := { text : string }.

Definition gettext_lazy (t : string) : LazyTranslation := {| text := t |}.

(** [LazyTranslation.__str__] *)
Definition LazyTranslation_str (m : ModuleGlobals) (self : LazyTranslation)
    : Res string :=
  match gettext m with
  | Some gt => Ret (gettext_gettext gt (text self))
  | None => Raise (Exc NameError (Line 82))
  end.

(** ** [AppriseLocale] *)

Record AppriseLocale := {
  lang : option string;
  _gtobjs : gmap (option string) catalog
}.

Abbreviation world := (AppriseLocale * Globals)%type.

(** [AppriseLocale.__init__].  When it raises nothing was installed. *)
Definition __init__ (m : ModuleGlobals) (h : Host) (language : pyobj)
    (g : Globals) : Res world :=
  match Locale.detect_language h language true with
  | Raise e => Raise e
  | Ret l =>
      let self := {| lang := l; _gtobjs := ∅ |} in
      if negb (GETTEXT_LOADED m) then Ret (self, g)
      else if Str.truthy_opt l then
        match gettext_translation m 133 l with
        | Ret c => Ret ({| lang := l; _gtobjs := <[l := c]> ∅ |}, install c g)
        | Raise e => if isinstance e [OSError] then Ret (self, g) else Raise e
        end
      else Ret (self, g)
  end.

(** *** The generator of [lang_at]

    A generator is suspended at one of its [yield]s, holding its local
    [lang]; [self] and the globals live outside it. *)

Inductive frame :=
| Created (lang : pyobj)           (* called, not yet started *)
| Yield155                         (* at line 155 *)
| Yield179 (lang : option string)  (* at line 179, inside [try] *)
| Yield184 (lang : option string)  (* at line 184, inside [except] *)
| Finished.

(** How a resumption of the generator ends. *)
Inductive signal :=
| Yielded (f : frame)
| Returned                 (* StopIteration *)
| Raised (e : exc).

(** Lines 186-190, the [finally] clause. *)
Definition finally_clause (l : option string) (w : world)
    : world * option exc :=
  let '(self, g) := w in
  if bool_decide (l ≠ lang self) && bool_decide (is_Some (_gtobjs self !! l))
  then
    match _gtobjs self !! lang self with
    | Some c => ((self, install c g), None)
    | None => (w, Some (Exc KeyError (Line 190)))
    end
  else (w, None).

(** Leaving the [try] statement with [pending] in flight: the [finally]
    clause runs, and an exception raised there replaces the pending one. *)
Definition leave_try (pending : option exc) (l : option string) (w : world)
    : world * signal :=
  match finally_clause l w with
  | (w', Some e) => (w', Raised e)
  | (w', None) =>
      (w', match pending with Some e => Raised e | None => Returned end)
  end.

(** [next(gen)] *)
Definition lang_at_next (m : ModuleGlobals) (h : Host) (f : frame) (w : world)
    : world * signal :=
  match f with
  | Created arg =>
      if negb (GETTEXT_LOADED m) then (w, Yielded Yield155)
      else
        match Locale.detect_language h arg false with
        | Raise e => (w, Raised e)
        | Ret l =>
            let '(self, g) := w in
            match _gtobjs self !! l with
            | Some c =>
                (if bool_decide (l ≠ lang self) then (self, install c g) else w,
                 Yielded (Yield179 l))
            | None =>
                match gettext_translation m 172 (lang self) with
                | Ret c =>
                    (({| lang := lang self;
                         _gtobjs := <[l := c]> (_gtobjs self) |},
                      install c g),
                     Yielded (Yield179 l))
                | Raise e =>
                    if isinstance e [OSError; KeyError]
                    then (w, Yielded (Yield184 l))
                    else leave_try (Some e) l w
                end
            end
        end
  | Yield155 => (w, Returned)
  | Yield179 l => leave_try None l w
  | Yield184 l => leave_try None l w
  | Finished => (w, Returned)
  end.

(** [gen.throw(value)] *)
Definition lang_at_throw (value : exc) (f : frame) (w : world)
    : world * signal :=
  match f with
  | Created _ => (w, Raised value)
  | Yield155 => (w, Raised value)
  | Yield179 l =>
      if isinstance value [OSError; KeyError]
      then (w, Yielded (Yield184 l))
      else leave_try (Some value) l w
  | Yield184 l => leave_try (Some value) l w
  | Finished => (w, Raised value)
  end.

(** [gen.close()], which also runs when a suspended generator is
    discarded. *)
Definition lang_at_close (f : frame) (w : world) : world * option exc :=
  match f with
  | Created _ | Finished => (w, None)
  | _ =>
      let exit := Exc GeneratorExit Interpreter in
      match lang_at_throw exit f w with
      | (w', Yielded _) => (w', Some (Exc RuntimeError Interpreter))
      | (w', Returned) => (w', None)
      | (w', Raised e) => (w', if decide (e = exit) then None else Some e)
      end
  end.

(** *** [contextlib.contextmanager] around the generator *)

(** [lang_at(arg).__enter__()] *)
Definition __enter__ (m : ModuleGlobals) (h : Host) (arg : pyobj) (w : world)
    : world * Res frame :=
  match lang_at_next m h (Created arg) w with
  | (w', Yielded f) => (w', Ret f)
  | (w', Returned) => (w', Raise (Exc RuntimeError Contextlib))
  | (w', Raised e) => (w', Raise e)
  end.

(** [__exit__]: [value] is the exception that left the body, if any; the
    result [true] swallows it. *)
Definition __exit__ (m : ModuleGlobals) (h : Host) (value : option exc)
    (f : frame) (w : world) : world * Res bool :=
  match value with
  | None =>
      match lang_at_next m h f w with
      | (w', Returned) => (w', Ret false)
      | (w', Yielded _) => (w', Raise (Exc RuntimeError Contextlib))
      | (w', Raised e) => (w', Raise e)
      end
  | Some v =>
      match lang_at_throw v f w with
      | (w', Returned) => (w', Ret true)
      | (w', Raised e) =>
          (w', if decide (e = v) then Ret false else Raise e)
      | (w', Yielded _) => (w', Raise (Exc RuntimeError Contextlib))
      end
  end.

(** [with self.lang_at(arg): body].  The result is the exception that
    leaves the statement, if any. *)
Definition with_lang_at (m : ModuleGlobals) (h : Host) (arg : pyobj)
    (body : world → world * option exc) (w : world) : world * option exc :=
  match __enter__ m h arg w with
  | (w1, Raise e) => (w1, Some e)
  | (w1, Ret f) =>
      let '(w2, r) := body w1 in
      match __exit__ m h r f w2 with
      | (w3, Raise e) => (w3, Some e)
      | (w3, Ret swallow) => (w3, if swallow then None else r)
      end
  end.

(** *** Pickle support

    [__getstate__] and [__setstate__] work on the instance dictionary. *)

Inductive attr :=
| AttrLang (l : option string)
| AttrGtobjs (t : gmap (option string) catalog).

(** [self.__dict__] *)
Definition __dict__ (self : AppriseLocale) : gmap string attr :=
  <["lang" := AttrLang (lang self)]>
    (<["_gtobjs" := AttrGtobjs (_gtobjs self)]> ∅).

(** The instance that has the dictionary [d]. *)
Definition of_dict (d : gmap string attr) : option AppriseLocale :=
  match d !! "lang", d !! "_gtobjs" with
  | Some (AttrLang l), Some (AttrGtobjs t) => Some {| lang := l; _gtobjs := t |}
  | _, _ => None
  end.

(** [__getstate__] on an instance with dictionary [d]: the copy without
    [_gtobjs]. *)
Definition __getstate__ (d : gmap string attr) : Res (gmap string attr) :=
  match d !! "_gtobjs" with
  | Some _ => Ret (delete "_gtobjs" d)
  | None => Raise (Exc KeyError (Line 253))
  end.

(** The call [self.__getstate__()] as a step of the instance: [state] is a
    copy, so the dictionary of the instance is the one it was; next to it
    the result. *)
Definition getstate_call (d : gmap string attr)
    : gmap string attr * Res (gmap string attr) :=
  (d, __getstate__ d).

(** [__setstate__(state)] on an instance with dictionary [d]: the
    dictionary afterwards. *)
Definition __setstate__ (d state : gmap string attr) : gmap string attr :=
  <["_gtobjs" := AttrGtobjs ∅]> (state ∪ d).

(** [pickle.loads(pickle.dumps(self))]: [__setstate__] runs on a new object
    whose dictionary is empty. *)
Definition pickle_roundtrip (self : AppriseLocale) : Res (option AppriseLocale) :=
  match __getstate__ (__dict__ self) with
  | Ret state => Ret (of_dict (__setstate__ ∅ state))
  | Raise e => Raise e
  end.

(** ** Notions used in the statements *)

(** The operations on an instance after its construction.
    [detect_language] is static and has no instance to write to;
    [__setstate__] is the constructor of the unpickled object and is not
    listed. *)
Inductive op :=
| Enter (arg : pyobj)
| Exit (value : option exc) (f : frame)
| Close (f : frame)
| Getstate
| DetectLanguage (l : pyobj) (detect_fallback : bool).

Definition run_op (m : ModuleGlobals) (h : Host) (o : op) (w : world) : world :=
  match o with
  | Enter arg => (__enter__ m h arg w).1
  | Exit value f => (__exit__ m h value f w).1
  | Close f => (lang_at_close f w).1
  | Getstate =>
      (default w.1 (of_dict (getstate_call (__dict__ w.1)).1), w.2)
  | DetectLanguage _ _ => w
  end.

Definition run_ops (m : ModuleGlobals) (h : Host) (os : list op) (w : world)
    : world :=
  foldl (fun w o => run_op m h o w) w os.

(** [b] is [a] with, at most, more entries in the cache. *)
Definition grown (a b : AppriseLocale) : Prop :=
  lang b = lang a ∧ _gtobjs a ⊆ _gtobjs b.

(** Every cached catalog is the one [gettext.translation] gives for the
    instance's own [lang]. *)
Definition default_only (gt : GettextModule) (self : AppriseLocale) : Prop :=
  ∀ k c, _gtobjs self !! k = Some c → translation gt (lang self) = Ret c.

(** The installs made between [g] and [g'], latest first: [g'] logs [new]
    on top of what [g] logged, and its [_] is that of the latest install, or
    of [g] when there was none. *)
Definition installs_since (g g' : Globals) (new : list catalog) : Prop :=
  install_log g' = (new ++ install_log g)%list ∧
  installed g' = match new with
                 | [] => installed g
                 | c :: _ => BoundGettext c
                 end.

(** Between [w] and [w'] only catalogs that the cache of [w'] holds were
    installed. *)
Definition installs_from_cache (w w' : world) : Prop :=
  ∃ new, installs_since w.2 w'.2 new ∧
         Forall (fun c => ∃ k, _gtobjs w'.1 !! k = Some c) new.

(** A variable is set and [_local_re] matches its value: the text of the
    group [lang]. *)
Definition env_lang (environ : gmap string string) (variable : string)
    : option string :=
  localename ← environ !! variable;
  result ← Locale._local_re_match localename;
  result !! "lang".

(** Two lower case ASCII letters. *)
Definition is_code (s : string) : bool :=
  match s with
  | String a (String b EmptyString) => Str.is_ascii_lower a && Str.is_ascii_lower b
  | _ => false
  end.

(** The string starts with two ASCII letters. *)
Definition has_leading_code (s : string) : bool :=
  match s with
  | String a (String b _) => Str.is_ascii_alpha a && Str.is_ascii_alpha b
  | _ => false
  end.

Definition is_alnum (c : ascii) : bool :=
  Str.is_ascii_alpha c || Str.between 48 57 c.

Fixpoint all_alnum (s : string) : bool :=
  match s with
  | EmptyString => true
  | String c s' => is_alnum c && all_alnum s'
  end.

(** The pattern [lang[_country][.encoding]] as the specification words
    it: two letters, then optionally [_] and two letters, then optionally
    [.] and an encoding that is not empty. *)
Definition spec_locale_pattern (s : string) : bool :=
  match s with
  | String a (String b rest) =>
      Str.is_ascii_alpha a && Str.is_ascii_alpha b &&
      match
        match rest with
        | String "_" (String c (String d rest')) =>
            if Str.is_ascii_alpha c && Str.is_ascii_alpha d then rest' else rest
        | _ => rest
        end
      with
      | EmptyString => true
      | String "." enc => Str.truthy enc
      | String _ _ => false
      end
  | _ => false
  end.

(** The shapes [xx], [xx:YY] and [xx_YY.enc]. *)
Definition well_formed (s : string) : bool :=
  match s with
  | String a (String b rest) =>
      Str.is_ascii_alpha a && Str.is_ascii_alpha b &&
      match rest with
      | EmptyString => true
      | String sep (String c (String d rest')) =>
          Str.is_ascii_alpha c && Str.is_ascii_alpha d &&
          match rest' with
          | EmptyString => bool_decide (sep = ":"%char)
          | String dot enc =>
              bool_decide (sep = "_"%char) && bool_decide (dot = "."%char) &&
              Str.truthy enc && all_alnum enc
          end
      | _ => false
      end
  | _ => false
  end.

(** A group name does not occur in a regular expression. *)
Fixpoint no_group (n : string) (r : Re.regex) : bool :=
  match r with
  | Re.Bol | Re.One _ | Re.Rep _ _ | Re.Star _ | Re.Plus _ => true
  | Re.Cat r1 r2 | Re.Alt r1 r2 => no_group n r1 && no_group n r2
  | Re.Opt r' => no_group n r'
  | Re.Group name r' => bool_decide (name ≠ Some n) && no_group n r'
  end.

Fixpoint skip_space (s : string) : string :=
  match s with
  | String a s' => if Str.is_space a then skip_space s' else s
  | EmptyString => EmptyString
  end.

(** The two letters that follow the leading whitespace. *)
Definition lang_prefix (s : string) : option string :=
  match skip_space s with
  | String a (String b _) =>
      if Str.is_ascii_alpha a && Str.is_ascii_alpha b
      then Some (String a (String b EmptyString))
      else None
  | _ => None
  end.

(** ** A concrete installation, for the examples *)

Module Sample.

Definition cat_en : catalog := {["Hello" := "Hello"]}.
Definition cat_fr : catalog := {["Hello" := "Bonjour"]}.

(** The [i18n] directory: the catalog file of each language that has one. *)
Definition i18n : gmap string catalog :=
  <["en" := cat_en]> (<["fr" := cat_fr]> ∅).

(** gettext over a directory: a language without a file raises
    [FileNotFoundError], the language [None] raises [AttributeError]. *)
Definition gettext_of (dir : gmap string catalog) : GettextModule := {|
  translation l :=
    match l with
    | Some code =>
        match dir !! code with
        | Some c => Ret c
        | None => Raise (Exc OSError Library)
        end
    | None => Raise (Exc AttributeError Library)
    end;
  install_default := ∅;
  gettext_gettext message := message
|}.

Definition host (env : list (string * string)) : Host := {|
  environ := list_to_map env;
  windll := None;
  windows_locale := ∅;
  getlocale_0 := Ret None
|}.

Definition fresh : Globals := {| installed := Unbound; install_log := [] |}.

(** The module imported where gettext is available. *)
Definition loaded : ModuleGlobals * Globals :=
  module_body (Some (gettext_of i18n)) fresh.

(** A body that does nothing, and one that raises [e]. *)
Definition pass (w : world) : world * option exc := (w, None).
Definition raising (e : exc) (w : world) : world * option exc := (w, Some e).

(** The instance made by [AppriseLocale("en")], the one by
    [AppriseLocale("fr")], and the copy of the first that a pickle round
    trip gives. *)
Definition en_instance : AppriseLocale :=
  {| lang := Some "en"; _gtobjs := {[Some "en" := cat_en]} |}.
Definition fr_instance : AppriseLocale :=
  {| lang := Some "fr"; _gtobjs := {[Some "fr" := cat_fr]} |}.
Definition unpickled : AppriseLocale :=
  {| lang := Some "en"; _gtobjs := ∅ |}.

(** The globals after the first, and after the second construction. *)
Definition en_installed : Globals := install cat_en loaded.2.
Definition fr_installed : Globals := install cat_fr en_installed.

End Sample.

(** * Properties *)

(** ** Characters *)

Ltac by_code a := destruct a as [[] [] [] [] [] [] [] []]; vm_compute; congruence.

Lemma cls_match_az a : Re.cls_match true Locale.az a = Str.is_ascii_alpha a.
Proof. by_code a. Qed.

Lemma cls_match_space a : Re.cls_match true Re.Space a = Str.is_space a.
Proof. by_code a. Qed.

Lemma space_not_alpha a : Str.is_space a = true → Str.is_ascii_alpha a = false.
Proof. by_code a. Qed.

Lemma lower_alpha a :
  Str.is_ascii_alpha a = true → Str.is_ascii_lower (Str.lower_char a) = true.
Proof. by_code a. Qed.

Lemma lower_code a b :
  Str.is_ascii_alpha a = true → Str.is_ascii_alpha b = true →
  is_code (Str.lower (String a (String b EmptyString))) = true.
Proof. intros Ha Hb. cbn. by rewrite !lower_alpha. Qed.

(** ** The matcher *)

Section matcher.
Import Re.

(** A successful run ends in a call of its continuation. *)
Lemma rep_inv p n pos s k g res :
  rep p n pos s k g = Some res → ∃ pos' s', k pos' s' g = Some res.
Proof.
  revert pos s. induction n as [|n IH]; intros pos s H; simpl in H.
  - eauto.
  - destruct s as [|a s']; [done|]. destruct (p a); [eauto|done].
Qed.

Lemma star_inv p pos s k g res :
  star p pos s k g = Some res → ∃ pos' s', k pos' s' g = Some res.
Proof.
  revert pos. induction s as [|a s' IH]; intros pos H; simpl in H.
  - eauto.
  - destruct (p a); [|eauto].
    destruct (star p (S pos) s' k g) eqn:E; [|eauto].
    injection H as ->. eauto.
Qed.

(** ... and on the way only the groups of the expression were set. *)
Lemma run_inv n ic r :
  no_group n r = true →
  ∀ pos s k g res,
    run ic r pos s k g = Some res →
    ∃ pos' s' g', k pos' s' g' = Some res ∧ g' !! n = g !! n.
Proof.
  induction r as [|c|c m|c|c|r1 IH1 r2 IH2|r1 IH1 r2 IH2|r IH|name r IH];
    cbn [run no_group]; intros Hn pos s k g res H.
  - case_decide; [eauto|done].
  - apply rep_inv in H as (? & ? & ?); eauto.
  - apply rep_inv in H as (? & ? & ?); eauto.
  - apply star_inv in H as (? & ? & ?); eauto.
  - apply rep_inv in H as (? & ? & H). apply star_inv in H as (? & ? & ?); eauto.
  - apply andb_prop in Hn as [Hn1 Hn2].
    apply (IH1 Hn1) in H as (pos1 & s1 & g1 & H & E1).
    apply (IH2 Hn2) in H as (pos2 & s2 & g2 & H & E2).
    exists pos2, s2, g2. split; [done|congruence].
  - apply andb_prop in Hn as [Hn1 Hn2].
    destruct (run ic r1 pos s k g) eqn:E.
    + injection H as ->. eauto.
    + eauto.
  - destruct (run ic r pos s k g) eqn:E.
    + injection H as ->. eauto.
    + eauto.
  - apply andb_prop in Hn as [Hn1 Hn2]. apply bool_decide_eq_true in Hn1.
    apply (IH Hn2) in H as (pos1 & s1 & g1 & H & E1).
    eexists _, _, _. split; [exact H|].
    destruct name as [x|]; simpl; [|done].
    rewrite lookup_insert_ne; [done|congruence].
Qed.

Lemma run_Opt ic r pos s k g :
  run ic (Opt r) pos s k g =
  match run ic r pos s k g with Some g' => Some g' | None => k pos s g end.
Proof. done. Qed.

(** Greedy [\s*] in front of something that cannot start with whitespace
    takes all the leading whitespace. *)
Lemma star_skip pos s k g :
  (∀ pos' a s', Str.is_space a = true → k pos' (String a s') g = None) →
  ∃ pos', star (cls_match true Space) pos s k g = k pos' (skip_space s) g.
Proof.
  intros Hk. revert pos. induction s as [|a s' IH]; intros pos; simpl.
  - eauto.
  - rewrite cls_match_space. destruct (Str.is_space a) eqn:Ea; [|eauto].
    destruct (IH (S pos)) as [pos' E]. rewrite E.
    destruct (k pos' (skip_space s') g) eqn:E'; [eauto|].
    exists pos'. rewrite E'. by apply Hk.
Qed.

(** [_local_re] matches exactly when two letters follow the leading
    whitespace, and the group [lang] is these two letters. *)
Lemma _local_re_match_spec s :
  match lang_prefix s with
  | Some xx =>
      ∃ result, Locale._local_re_match s = Some result ∧ result !! "lang" = Some xx
  | None => Locale._local_re_match s = None
  end.
Proof.
  unfold Locale._local_re_match, match_, Locale._local_re.
  match goal with |- context [Opt ?r] => remember (Opt r) as T eqn:HT end.
  cbn [run]. rewrite decide_True by done.
  match goal with |- context [star _ 0 s ?k ∅] => set (K := k) end.
  destruct (star_skip 0 s K ∅) as [pos E].
  { intros pos' a s' Ha. unfold K. cbn [rep]. rewrite cls_match_az.
    by rewrite (space_not_alpha a Ha). }
  rewrite E. unfold lang_prefix, K. clear E K.
  destruct (skip_space s) as [|a [|b rest]]; cbn [rep]; try done.
  - by destruct (cls_match true Locale.az a).
  - rewrite !cls_match_az.
    destruct (Str.is_ascii_alpha a); [|done].
    destruct (Str.is_ascii_alpha b); [|done]. cbn [andb].
    replace (S (S pos) - pos) with 2 by lia. cbn [substring set_group].
    subst T. rewrite run_Opt.
    match goal with
    | |- context [run true ?r ?p ?s ?k ?g] =>
        destruct (run true r p s k g) as [res|] eqn:E
    end.
    + apply run_inv with (n := "lang") in E as (? & ? & g' & [= ->] & E); [|done].
      exists res. split; [done|]. rewrite E, lookup_insert_eq.
      by destruct rest.
    + eexists. split; [done|]. rewrite lookup_insert_eq. by destruct rest.
Qed.

End matcher.

Lemma lang_prefix_Some s xx :
  lang_prefix s = Some xx →
  ∃ a b, xx = String a (String b EmptyString) ∧
         Str.is_ascii_alpha a = true ∧ Str.is_ascii_alpha b = true.
Proof.
  unfold lang_prefix. destruct (skip_space s) as [|a [|b rest]]; try done.
  destruct (Str.is_ascii_alpha a) eqn:Ea; [|done].
  destruct (Str.is_ascii_alpha b) eqn:Eb; [|done].
  intros [= <-]. eauto.
Qed.

Lemma env_lang_prefix environ variable :
  env_lang environ variable = environ !! variable ≫= lang_prefix.
Proof.
  unfold env_lang. destruct (environ !! variable) as [localename|]; [|done].
  change (Some localename ≫= lang_prefix) with (lang_prefix localename).
  change (Some localename ≫= ?f) with (f localename). cbv beta.
  pose proof (_local_re_match_spec localename) as H.
  destruct (lang_prefix localename) as [xx|].
  - destruct H as (result & -> & E). done.
  - by rewrite H.
Qed.

(** ** [detect_language] *)

(** One turn of the loop over the variables. *)
Lemma posix_lookup_cons environ variable rest :
  Locale.posix_lookup environ (variable :: rest) =
  match env_lang environ variable with
  | Some xx => Some (Str.lower xx)
  | None => Locale.posix_lookup environ rest
  end.
Proof.
  rewrite env_lang_prefix. cbn [Locale.posix_lookup].
  destruct (environ !! variable) as [localename|]; [|done].
  change (Some localename ≫= lang_prefix) with (lang_prefix localename).
  pose proof (_local_re_match_spec localename) as H.
  destruct (lang_prefix localename) as [xx|] eqn:E.
  - destruct H as (result & -> & ->).
    destruct localename; [done|].
    by apply lang_prefix_Some in E as (? & ? & -> & _).
  - rewrite H. by destruct (Str.truthy localename).
Qed.

Lemma posix_lookup_app environ before variables :
  (∀ v, v ∈ before → env_lang environ v = None) →
  Locale.posix_lookup environ (before ++ variables) =
  Locale.posix_lookup environ variables.
Proof.
  induction before as [|v before IH]; intros H; [done|].
  rewrite <- app_comm_cons, posix_lookup_cons, H by left.
  apply IH. intros u Hu. apply H. by right.
Qed.

(** Without fallback nothing of the host is read and nothing is raised. *)
Lemma detect_language_no_fallback h arg :
  Locale.detect_language h arg false =
  Ret (match arg with PyStr s => Locale.line_245 (Some s) | _ => None end).
Proof. by destruct arg. Qed.

(** The variables are probed in the order of the source, and a variable
    that is set wins whatever the later ones hold. *)
Lemma detect_language_LC_ALL h :
  environ h !! "LC_ALL" = Some "fr_FR.UTF-8" →
  Locale.detect_language h PyNone true = Ret (Some "fr").
Proof.
  intros E. cbn [Locale.detect_language negb]. unfold Locale.posix_variables.
  rewrite posix_lookup_cons, env_lang_prefix, E. done.
Qed.

Lemma detect_language_LANGUAGE h :
  environ h !! "LC_ALL" = None → environ h !! "LC_CTYPE" = None →
  environ h !! "LANG" = None → environ h !! "LANGUAGE" = Some "de_DE" →
  Locale.detect_language h PyNone true = Ret (Some "de").
Proof.
  intros E1 E2 E3 E4. cbn [Locale.detect_language negb].
  unfold Locale.posix_variables.
  rewrite !posix_lookup_cons, !env_lang_prefix, E1, E2, E3, E4. done.
Qed.

(** A value of the shape [lang[_country][.encoding]] is matched, and the
    group [lang] is its first two characters. *)
Lemma spec_locale_pattern_prefix s :
  spec_locale_pattern s = true → lang_prefix s = Some (Str.slice_0_2 s).
Proof.
  destruct s as [|a [|b rest]]; try done. cbn [spec_locale_pattern].
  intros H. apply andb_prop in H as [H _]. apply andb_prop in H as [Ha Hb].
  unfold lang_prefix. cbn [skip_space].
  destruct (Str.is_space a) eqn:Es.
  { apply space_not_alpha in Es. congruence. }
  rewrite Ha, Hb. cbn [andb]. unfold Str.slice_0_2. by destruct rest.
Qed.

(** C5 fails as stated: LC_ALL=POSIX is set and has not the shape
    [lang[_country][.encoding]], LANG=fr_FR.UTF-8 is the first variable that
    has it, and the result is "po", not "fr". *)
Lemma detect_language_POSIX_first :
  spec_locale_pattern "POSIX" = false ∧
  spec_locale_pattern "fr_FR.UTF-8" = true ∧
  Locale.detect_language
    (Sample.host [("LC_ALL", "POSIX"); ("LANG", "fr_FR.UTF-8")]) PyNone true
  = Ret (Some "po").
Proof. repeat split; vm_compute; reflexivity. Qed.

(** C5, as the code has it.  When no string is supplied and fallback is
    enabled, [detect_language] probes LC_ALL, LC_CTYPE, LANG, LANGUAGE in
    this order: if [variable] is the first of them that is set and that
    [_local_re] matches (two letters after optional whitespace, whatever
    follows), the result is the lower case of its group [lang], which has
    two characters; when the value has the shape [lang[_country][.encoding]]
    these are its first two characters. *)
Theorem detect_language_environment (h : Host) (arg : pyobj)
    (before : list string) (variable : string) (after : list string)
    (xx : string) :
  (∀ s, arg ≠ PyStr s) →
  Locale.posix_variables = (before ++ variable :: after)%list →
  (∀ v, v ∈ before → env_lang (environ h) v = None) →
  env_lang (environ h) variable = Some xx →
  Locale.detect_language h arg true = Ret (Some (Str.lower xx)) ∧
  String.length xx = 2 ∧
  (∀ localename,
     environ h !! variable = Some localename →
     spec_locale_pattern localename = true →
     xx = Str.slice_0_2 localename).
Proof.
  intros Harg Hvars Hbefore Hvar. split.
  - assert (Locale.posix_lookup (environ h) Locale.posix_variables
            = Some (Str.lower xx)) as E.
    { rewrite Hvars, posix_lookup_app by done.
      by rewrite posix_lookup_cons, Hvar. }
    destruct arg as [|s|z]; [|by destruct (Harg s)|];
      cbn [Locale.detect_language negb]; by rewrite E.
  - rewrite env_lang_prefix in Hvar.
    destruct (environ h !! variable) as [localename|]; [|done].
    change (lang_prefix localename = Some xx) in Hvar. split.
    + by apply lang_prefix_Some in Hvar as (a & b & -> & _).
    + intros ? [= <-] Hs. apply spec_locale_pattern_prefix in Hs. congruence.
Qed.

(** With LC_ALL=fr_FR.UTF-8 the result is "fr"; with only LANGUAGE=de_DE
    it is "de". *)
Lemma detect_language_environment_witness :
  Locale.detect_language (Sample.host [("LC_ALL", "fr_FR.UTF-8")]) PyNone true
    = Ret (Some "fr") ∧
  Locale.detect_language (Sample.host [("LANGUAGE", "de_DE")]) PyNone true
    = Ret (Some "de").
Proof.
  split.
  - refine (proj1 (detect_language_environment
             (Sample.host [("LC_ALL", "fr_FR.UTF-8")]) PyNone
             [] "LC_ALL" ["LC_CTYPE"; "LANG"; "LANGUAGE"] "fr" _ eq_refl _ _)).
    + intros s; discriminate.
    + intros v Hv. inversion Hv.
    + vm_compute. reflexivity.
  - refine (proj1 (detect_language_environment
             (Sample.host [("LANGUAGE", "de_DE")]) PyNone
             ["LC_ALL"; "LC_CTYPE"; "LANG"] "LANGUAGE" [] "de" _ eq_refl _ _)).
    + intros s; discriminate.
    + intros v Hv.
      repeat (apply elem_of_cons in Hv as [-> | Hv]; [vm_compute; reflexivity|]).
      inversion Hv.
    + vm_compute. reflexivity.
Defined.

(** C2, as the code has it.  A supplied string is cut to its first two
    characters and put in lower case; only the empty string gives [None]. *)
Theorem detect_language_supplied h s detect_fallback :
  Locale.detect_language h (PyStr s) detect_fallback =
  Ret (match s with
       | EmptyString => None
       | String a EmptyString => Some (String (Str.lower_char a) EmptyString)
       | String a (String b _) =>
           Some (String (Str.lower_char a) (String (Str.lower_char b) EmptyString))
       end).
Proof. destruct s as [|a [|b [|c rest]]]; reflexivity. Qed.

(** C2 fails as stated: "12" starts with no two letter code, and comes
    back as "12". *)
Lemma detect_language_digits :
  has_leading_code "12" = false ∧
  Locale.detect_language (Sample.host []) (PyStr "12") true = Ret (Some "12") ∧
  Locale.detect_language (Sample.host []) (PyStr "12") true ≠ Ret None.
Proof. repeat split. discriminate. Qed.

(** Two leading letters are enough, whatever follows them. *)
Lemma detect_language_leading_code h s detect_fallback :
  has_leading_code s = true →
  Locale.detect_language h (PyStr s) detect_fallback
    = Ret (Some (Str.lower (Str.slice_0_2 s))) ∧
  is_code (Str.lower (Str.slice_0_2 s)) = true.
Proof.
  intros H. destruct s as [|a [|b rest]]; try done.
  cbn [has_leading_code] in H. apply andb_prop in H as [Ha Hb].
  unfold Str.slice_0_2.
  replace (substring 0 2 (String a (String b rest)))
    with (String a (String b EmptyString)) by (by destruct rest).
  split; [by destruct rest|]. by apply lower_code.
Qed.

Lemma well_formed_leading_code s :
  well_formed s = true → has_leading_code s = true.
Proof.
  destruct s as [|a [|b rest]]; try done. cbn [well_formed has_leading_code].
  intros H. by apply andb_prop in H as [H _].
Qed.

(** C9. For a supplied string of the shape [xx], [xx:YY] or [xx_YY.enc],
    with letters of either case, [detect_language] returns the first two
    characters in lower case, and these are two lower case letters. *)
Theorem detect_language_well_formed h s detect_fallback :
  well_formed s = true →
  Locale.detect_language h (PyStr s) detect_fallback
    = Ret (Some (Str.lower (Str.slice_0_2 s))) ∧
  is_code (Str.lower (Str.slice_0_2 s)) = true.
Proof.
  intros H. by apply detect_language_leading_code, well_formed_leading_code.
Qed.

Lemma detect_language_well_formed_witness :
  well_formed "en_CA.utf8" = true ∧
  Locale.detect_language (Sample.host []) (PyStr "en_CA.utf8") false
    = Ret (Some "en") ∧
  well_formed "FR:be" = true ∧
  Locale.detect_language (Sample.host []) (PyStr "FR:be") true
    = Ret (Some "fr") ∧
  well_formed "De" = true ∧
  Locale.detect_language (Sample.host []) (PyStr "De") true
    = Ret (Some "de").
Proof.
  refine (conj eq_refl (conj _ (conj eq_refl (conj _ (conj eq_refl _))))).
  - exact (proj1 (detect_language_well_formed (Sample.host []) "en_CA.utf8" false
                    eq_refl)).
  - exact (proj1 (detect_language_well_formed (Sample.host []) "FR:be" true
                    eq_refl)).
  - exact (proj1 (detect_language_well_formed (Sample.host []) "De" true
                    eq_refl)).
Defined.

(** ** The module body and [LazyTranslation] *)

(** Without gettext the installed [_] hands its argument back. *)
Lemma underscore_without_gettext g t :
  call_underscore (module_body None g).2 t = Ret t.
Proof. reflexivity. Qed.

(** ... and [lang_at] is a scope that touches nothing. *)
Lemma lang_at_without_gettext g h arg body w :
  with_lang_at (module_body None g).1 h arg body w = body w.
Proof.
  unfold with_lang_at. cbn.
  destruct (body w) as [w2 [e|]]; cbn; [|reflexivity].
  by rewrite decide_True by done.
Qed.

(** C4, at the failing input.  Where gettext cannot be imported the name
    [gettext] is never bound, and rendering a lazy text raises [NameError]
    instead of returning the text. *)
Theorem lazy_str_without_gettext g t :
  LazyTranslation_str (module_body None g).1 (gettext_lazy t)
    = Raise (Exc NameError (Line 82)).
Proof. reflexivity. Qed.

(** ** The constructor *)

(** How the sample instances come about. *)
Lemma sample_construction :
  __init__ Sample.loaded.1 (Sample.host []) (PyStr "en") Sample.loaded.2
    = Ret (Sample.en_instance, Sample.en_installed) ∧
  __init__ Sample.loaded.1 (Sample.host []) (PyStr "fr") Sample.en_installed
    = Ret (Sample.fr_instance, Sample.fr_installed) ∧
  pickle_roundtrip Sample.en_instance = Ret (Some Sample.unpickled).
Proof. repeat split; vm_compute; reflexivity. Qed.

(** C7. When the catalog of the detected language cannot be found or
    opened ([gettext.translation] raises [IOError]), the constructor
    returns: nothing is cached, nothing is installed, and [lang] is what
    [detect_language] gave. *)
Theorem init_absorbs_missing_catalog m h language g l e :
  Locale.detect_language h language true = Ret l →
  gettext_translation m 133 l = Raise e →
  isinstance e [OSError] = true →
  __init__ m h language g = Ret ({| lang := l; _gtobjs := ∅ |}, g).
Proof.
  intros Hl Ht He. unfold __init__. rewrite Hl, Ht, He.
  destruct (GETTEXT_LOADED m), (Str.truthy_opt l); reflexivity.
Qed.

Lemma init_absorbs_missing_catalog_witness :
  __init__ Sample.loaded.1 (Sample.host []) (PyStr "zz_ZZ") Sample.loaded.2
    = Ret ({| lang := Some "zz"; _gtobjs := ∅ |}, Sample.loaded.2).
Proof.
  apply (init_absorbs_missing_catalog Sample.loaded.1 (Sample.host [])
           (PyStr "zz_ZZ") Sample.loaded.2 (Some "zz") (Exc OSError Library));
    reflexivity.
Defined.

(** ** Pickling *)

(** C10. [__getstate__] followed by [__setstate__], on whatever object the
    latter runs, gives an instance with the original [lang] and an empty
    cache. *)
Theorem pickle_roundtrip_resets_cache self d :
  ∃ state,
    __getstate__ (__dict__ self) = Ret state ∧
    of_dict (__setstate__ d state) = Some {| lang := lang self; _gtobjs := ∅ |}.
Proof.
  exists (delete "_gtobjs" (__dict__ self)). split.
  - unfold __getstate__, __dict__.
    rewrite lookup_insert_ne by done. rewrite lookup_insert_eq. reflexivity.
  - unfold of_dict, __setstate__.
    rewrite lookup_insert_eq, lookup_insert_ne by done.
    rewrite (lookup_union_Some_l _ d "lang" (AttrLang (lang self))); [done|].
    rewrite lookup_delete_ne by done.
    unfold __dict__. by rewrite lookup_insert_eq.
Qed.

(** ** The scope of [lang_at] *)

(** *** On entry *)

(** C3. When the tidied language [l] is not in the cache, [lang_at] calls
    [gettext.translation] with [self.lang], not with [l]; a catalog that
    comes back is stored under [l] and installed.  An [IOError] or
    [KeyError] leads to the second [yield], anything else leaves
    [__enter__] with the instance as it was. *)
Theorem lang_at_loads_default m gt h self g arg l :
  GETTEXT_LOADED m = true →
  gettext m = Some gt →
  Locale.detect_language h arg false = Ret l →
  _gtobjs self !! l = None →
  __enter__ m h arg (self, g) =
  match translation gt (lang self) with
  | Ret c =>
      (({| lang := lang self; _gtobjs := <[l := c]> (_gtobjs self) |},
        install c g),
       Ret (Yield179 l))
  | Raise e =>
      ((self, g),
       if isinstance e [OSError; KeyError] then Ret (Yield184 l) else Raise e)
  end.
Proof.
  intros Hm Hgt Hl Hnone.
  unfold __enter__, lang_at_next, gettext_translation.
  rewrite Hm, Hl, Hnone, Hgt. cbn [negb].
  destruct (translation gt (lang self)) as [c|e]; [done|].
  destruct (isinstance e [OSError; KeyError]); [done|].
  unfold leave_try, finally_clause. rewrite Hnone.
  rewrite (bool_decide_eq_false_2 (is_Some None)) by (by intros [? ?]).
  by rewrite andb_false_r.
Qed.

(** A request for French on an English instance caches the English
    catalog under "fr". *)
Lemma lang_at_loads_default_witness :
  __enter__ Sample.loaded.1 (Sample.host []) (PyStr "fr_FR")
    (Sample.unpickled, Sample.en_installed) =
  (({| lang := Some "en"; _gtobjs := <[Some "fr" := Sample.cat_en]> ∅ |},
    install Sample.cat_en Sample.en_installed),
   Ret (Yield179 (Some "fr"))) ∧
  translation (Sample.gettext_of Sample.i18n) (Some "fr") = Ret Sample.cat_fr.
Proof.
  split; [|reflexivity].
  exact (lang_at_loads_default Sample.loaded.1 (Sample.gettext_of Sample.i18n)
           (Sample.host []) Sample.unpickled Sample.en_installed
           (PyStr "fr_FR") (Some "fr") eq_refl eq_refl eq_refl eq_refl).
Defined.

(** *** The default language *)

(** C6 fails as stated: on the unpickled instance, whose cache is empty,
    a request that tidies to its own [lang] loads and installs the catalog
    over the one that was active, and the exit does not put that one
    back. *)
Lemma lang_at_default_installs :
  Locale.detect_language (Sample.host []) (PyStr "en_US") false
    = Ret (lang Sample.unpickled) ∧
  installed Sample.fr_installed = BoundGettext Sample.cat_fr ∧
  __enter__ Sample.loaded.1 (Sample.host []) (PyStr "en_US")
    (Sample.unpickled, Sample.fr_installed) =
  ((Sample.en_instance, install Sample.cat_en Sample.fr_installed),
   Ret (Yield179 (Some "en"))) ∧
  with_lang_at Sample.loaded.1 (Sample.host []) (PyStr "en_US") Sample.pass
    (Sample.unpickled, Sample.fr_installed) =
  ((Sample.en_instance, install Sample.cat_en Sample.fr_installed), None).
Proof. repeat split; vm_compute; reflexivity. Qed.

(** C6, as the code has it.  When the request tidies to the instance's own
    [lang] and that language is in the cache, entering installs nothing,
    and leaving, normally or through an exception, installs nothing as long
    as [lang] is what it was. *)
Theorem lang_at_cached_default_no_install m h self g arg :
  Locale.detect_language h arg false = Ret (lang self) →
  is_Some (_gtobjs self !! lang self) →
  ∃ f,
    __enter__ m h arg (self, g) = ((self, g), Ret f) ∧
    ∀ value self' g',
      lang self' = lang self →
      (__exit__ m h value f (self', g')).1 = (self', g').
Proof.
  intros Hl [c Hc]. unfold __enter__, lang_at_next.
  destruct (GETTEXT_LOADED m); cbn [negb].
  - rewrite Hl, Hc. rewrite bool_decide_eq_false_2 by (intros H; by apply H).
    exists (Yield179 (lang self)). split; [reflexivity|].
    intros value self' g' Hlang.
    assert (finally_clause (lang self) (self', g') = ((self', g'), None)) as Hf.
    { unfold finally_clause.
      rewrite Hlang.
      by rewrite bool_decide_eq_false_2 by (intros H; by apply H). }
    destruct value as [v|]; cbn [__exit__ lang_at_throw lang_at_next].
    + destruct (isinstance v [OSError; KeyError]); [reflexivity|].
      unfold leave_try. rewrite Hf. by case_decide.
    + unfold leave_try. rewrite Hf. reflexivity.
  - exists Yield155. split; [reflexivity|].
    intros [v|] self' g' _; reflexivity.
Qed.

Lemma lang_at_cached_default_no_install_witness :
  ∃ f,
    __enter__ Sample.loaded.1 (Sample.host []) (PyStr "en_US")
      (Sample.en_instance, Sample.fr_installed)
      = ((Sample.en_instance, Sample.fr_installed), Ret f) ∧
    ∀ value self' g',
      lang self' = lang Sample.en_instance →
      (__exit__ Sample.loaded.1 (Sample.host []) value f (self', g')).1
        = (self', g').
Proof.
  apply (lang_at_cached_default_no_install Sample.loaded.1 (Sample.host [])
           Sample.en_instance Sample.fr_installed (PyStr "en_US")).
  - reflexivity.
  - exists Sample.cat_en. vm_compute. reflexivity.
Defined.

(** *** What the scope does to the instance *)

#[local] Instance grown_preorder : PreOrder grown.
Proof.
  split.
  - intros a. split; reflexivity.
  - intros a b c [E1 S1] [E2 S2]. split; [congruence|by etrans].
Qed.

Lemma finally_clause_self l w : (finally_clause l w).1.1 = w.1.
Proof.
  destruct w as [self g]. unfold finally_clause.
  destruct (bool_decide (l ≠ lang self) && _); [|reflexivity].
  destruct (_gtobjs self !! lang self); reflexivity.
Qed.

Lemma leave_try_self pending l w : (leave_try pending l w).1.1 = w.1.
Proof.
  unfold leave_try. pose proof (finally_clause_self l w) as H.
  destruct (finally_clause l w) as [w' [e|]]; exact H.
Qed.

Lemma lang_at_throw_self value f w : (lang_at_throw value f w).1.1 = w.1.
Proof.
  destruct f as [arg| |l|l|]; cbn [lang_at_throw]; try reflexivity.
  - destruct (isinstance value [OSError; KeyError]); [reflexivity|].
    apply leave_try_self.
  - apply leave_try_self.
Qed.

Lemma lang_at_next_grown m h f w : grown w.1 (lang_at_next m h f w).1.1.
Proof.
  destruct f as [arg| |l|l|]; cbn [lang_at_next];
    try reflexivity; try (by rewrite leave_try_self).
  destruct (GETTEXT_LOADED m); cbn [negb]; [|reflexivity].
  rewrite detect_language_no_fallback.
  set (l := match arg with PyStr s => _ | _ => _ end). clearbody l.
  destruct w as [self g].
  destruct (_gtobjs self !! l) as [c|] eqn:El.
  - by case_bool_decide.
  - destruct (gettext_translation m 172 (lang self)) as [c|e].
    + split; [reflexivity|]. by apply insert_subseteq.
    + destruct (isinstance e [OSError; KeyError]); [reflexivity|].
      by rewrite leave_try_self.
Qed.

Lemma of_dict_dict self : of_dict (__dict__ self) = Some self.
Proof.
  unfold of_dict, __dict__.
  rewrite lookup_insert_eq, lookup_insert_ne, lookup_insert_eq by done.
  by destruct self.
Qed.

Lemma run_op_grown m h o w : grown w.1 (run_op m h o w).1.
Proof.
  destruct o as [arg|value f|f| |l fb]; cbn [run_op]; try reflexivity.
  4:{ unfold getstate_call. cbn [fst]. rewrite of_dict_dict. reflexivity. }
  - unfold __enter__. pose proof (lang_at_next_grown m h (Created arg) w) as H.
    by destruct (lang_at_next m h (Created arg) w) as [w' [f| |e]].
  - destruct value as [v|]; cbn [__exit__].
    + pose proof (lang_at_throw_self v f w) as H.
      destruct (lang_at_throw v f w) as [w' [f'| |e]]; cbn in *;
        by rewrite H.
    + pose proof (lang_at_next_grown m h f w) as H.
      by destruct (lang_at_next m h f w) as [w' [f'| |e]].
  - destruct f as [arg| |l|l|]; cbn [lang_at_close]; try reflexivity.
    all: match goal with
         | |- context [lang_at_throw ?v ?f ?w0] =>
             pose proof (lang_at_throw_self v f w0) as H;
             destruct (lang_at_throw v f w0) as [w' [f'| |e]]; cbn in *;
             by rewrite H
         end.
Qed.

(** C8. Whatever operations run on an instance after its construction,
    in whatever order, [lang] stays what it was and every entry of the
    cache stays, under its key and with its catalog. *)
Theorem operations_keep_lang_and_cache m h os w :
  lang (run_ops m h os w).1 = lang w.1 ∧
  _gtobjs w.1 ⊆ _gtobjs (run_ops m h os w).1.
Proof.
  change (grown w.1 (run_ops m h os w).1).
  revert w. induction os as [|o os IH]; intros w; [reflexivity|].
  cbn [run_ops foldl]. etrans; [apply (run_op_grown m h o)|apply IH].
Qed.

(** *** On exit *)

(** Leaving from either [yield] of the [try] statement, when the default
    language's catalog is cached: the [finally] clause raises nothing and,
    if it installs, installs that catalog. *)
Lemma exit_with_cached_default m h l r self g c :
  _gtobjs self !! lang self = Some c →
  (l ≠ lang self ∧ is_Some (_gtobjs self !! l)) ∨ installed g = BoundGettext c →
  (∀ e, r = Some e → isinstance e [OSError; KeyError] = false) →
  ∀ f, f = Yield179 l ∨ f = Yield184 l →
    ∃ w3, __exit__ m h r f (self, g) = (w3, Ret false) ∧
          installed w3.2 = BoundGettext c.
Proof.
  intros Hc Hg Hr f Hf.
  assert (∃ w3, finally_clause l (self, g) = (w3, None) ∧
                installed w3.2 = BoundGettext c) as (w3 & Hfin & Hw3).
  { unfold finally_clause. rewrite Hc.
    destruct Hg as [[Hne Hin]|Hg].
    - rewrite bool_decide_eq_true_2, bool_decide_eq_true_2 by done. eauto.
    - destruct (_ && _); eauto. }
  exists w3. split; [|done].
  destruct r as [e|], Hf as [-> | ->];
    cbn [__exit__ lang_at_throw lang_at_next];
    try rewrite (Hr e eq_refl); unfold leave_try; rewrite Hfin;
    try rewrite decide_True by done; reflexivity.
Qed.

(** When the default language's catalog is cached and is the one
    installed, a scope whose body ends normally, or with an exception other
    than [IOError] and [KeyError], and leaves instance and globals alone, ends
    with that catalog installed, and [__exit__] raises nothing of its
    own. *)
Lemma lang_at_restores_cached_default m h self g arg c r :
  _gtobjs self !! lang self = Some c →
  installed g = BoundGettext c →
  (∀ e, r = Some e → isinstance e [OSError; KeyError] = false) →
  ∀ f w1,
    __enter__ m h arg (self, g) = (w1, Ret f) →
    ∃ w3, __exit__ m h r f w1 = (w3, Ret false) ∧
          installed w3.2 = BoundGettext c.
Proof.
  intros Hc Hg Hr f w1. unfold __enter__, lang_at_next.
  destruct (GETTEXT_LOADED m); cbn [negb].
  2:{ intros [= <- <-]. exists (self, g). split; [|done].
      destruct r as [e|]; cbn; [|reflexivity].
      by rewrite decide_True by done. }
  rewrite detect_language_no_fallback.
  set (l := match arg with PyStr s => _ | _ => _ end). clearbody l.
  destruct (_gtobjs self !! l) as [c'|] eqn:El.
  - case_bool_decide as Hne; intros [= <- <-];
      eapply exit_with_cached_default; eauto.
  - assert (l ≠ lang self) as Hne by congruence.
    destruct (gettext_translation m 172 (lang self)) as [c'|e].
    + intros [= <- <-].
      eapply exit_with_cached_default; [| |done|by left].
      * cbn. by rewrite lookup_insert_ne.
      * left. cbn. by rewrite lookup_insert_eq.
    + destruct (isinstance e [OSError; KeyError]).
      * intros [= <- <-]. eapply exit_with_cached_default; eauto.
      * unfold leave_try.
        destruct (finally_clause l (self, g)) as [w' [e'|]]; discriminate.
Qed.

(** C1, at failing inputs.  (1) On the copy that a pickle round trip gives,
    whose cache is empty, a scope for another language ends with
    [KeyError] raised by the [finally] clause.  (2) With the catalog of
    another instance installed, the scope ends with the own default
    catalog installed, not with the one that was there.  (3) A body that
    raises [IOError] makes [__exit__] raise [RuntimeError]. *)
Theorem lang_at_exit_failures :
  with_lang_at Sample.loaded.1 (Sample.host []) (PyStr "fr") Sample.pass
    (Sample.unpickled, Sample.en_installed) =
  (({| lang := Some "en"; _gtobjs := {[Some "fr" := Sample.cat_en]} |},
    install Sample.cat_en Sample.en_installed),
   Some (Exc KeyError (Line 190))) ∧
  (installed Sample.fr_installed = BoundGettext Sample.cat_fr ∧
   ∃ w, with_lang_at Sample.loaded.1 (Sample.host []) (PyStr "de") Sample.pass
          (Sample.en_instance, Sample.fr_installed) = (w, None) ∧
        installed w.2 = BoundGettext Sample.cat_en) ∧
  (∃ w, with_lang_at Sample.loaded.1 (Sample.host []) (PyStr "fr")
          (Sample.raising (Exc OSError Body))
          (Sample.en_instance, Sample.en_installed) =
        (w, Some (Exc RuntimeError Contextlib))).
Proof.
  split; [vm_compute; reflexivity|]. split.
  - split; [reflexivity|]. eexists. split; vm_compute; reflexivity.
  - eexists. vm_compute. reflexivity.
Qed.

(** * Further properties of the code *)

(** ** [_local_re] *)

(** X1. Among the strings made of code points below 256, [_local_re]
    matches exactly those in which two ASCII letters follow the leading
    whitespace, whatever comes after them, and the group [lang] of a match
    is these two letters.  (Beyond these code points [[a-z]] under
    [re.IGNORECASE] matches four more characters.) *)
Theorem local_re_matches_leading_code s :
  (is_Some (Locale._local_re_match s) ↔ is_Some (lang_prefix s)) ∧
  (∀ result, Locale._local_re_match s = Some result →
             result !! "lang" = lang_prefix s).
Proof.
  pose proof (_local_re_match_spec s) as H.
  destruct (lang_prefix s) as [xx|].
  - destruct H as (result & E & Hl). rewrite E. split.
    + split; eauto.
    + by intros ? [= <-].
  - rewrite H. split; [|done]. split; intros [? ?]; done.
Qed.

(** ** [detect_language] *)

Lemma lower_char_idemp a : Str.lower_char (Str.lower_char a) = Str.lower_char a.
Proof. by_code a. Qed.

Lemma lower_idemp s : Str.lower (Str.lower s) = Str.lower s.
Proof. induction s as [|a s IH]; [done|]. cbn. by rewrite lower_char_idemp, IH. Qed.

Lemma lower_length s : String.length (Str.lower s) = String.length s.
Proof. induction s as [|a s IH]; [done|]. cbn. by rewrite IH. Qed.

Lemma slice_0_2_length s : (String.length (Str.slice_0_2 s) ≤ 2)%nat.
Proof. destruct s as [|a [|b [|c s]]]; cbn; lia. Qed.

Lemma line_245_shape l code :
  Locale.line_245 l = Some code →
  (String.length code ≤ 2)%nat ∧ Str.lower code = code.
Proof.
  destruct l as [s|]; [|done]. cbn.
  destruct (Str.truthy s); [|done]. intros [= <-].
  rewrite lower_length, lower_idemp. split; [apply slice_0_2_length|done].
Qed.

Lemma posix_lookup_shape environ variables code :
  Locale.posix_lookup environ variables = Some code →
  (String.length code ≤ 2)%nat ∧ Str.lower code = code.
Proof.
  induction variables as [|v vs IH]; [done|].
  rewrite posix_lookup_cons, env_lang_prefix.
  destruct (environ !! v ≫= lang_prefix) as [xx|] eqn:E; [|done].
  intros [= <-]. rewrite lower_length, lower_idemp.
  destruct (environ !! v) as [localename|]; [|done].
  apply lang_prefix_Some in E as (a & b & -> & _). split; [cbn; lia|done].
Qed.

(** X2. On strings made of code points below 256 (argument, environment,
    Windows table, OS locale), whichever way [detect_language] finds a
    language, the code it returns has at most two characters and is in
    lower case.  (Beyond these code points [str.lower] can lengthen a
    string.) *)
Theorem detect_language_code_shape h arg detect_fallback code :
  Locale.detect_language h arg detect_fallback = Ret (Some code) →
  (String.length code ≤ 2)%nat ∧ Str.lower code = code.
Proof.
  assert (∀ s, Ret (Locale.line_245 (Some s)) = Ret (Some code) →
               (String.length code ≤ 2)%nat ∧ Str.lower code = code) as Hstr.
  { intros s [= E]. by apply (line_245_shape (Some s)). }
  unfold Locale.detect_language.
  destruct arg as [|s|z]; [|apply Hstr|];
    (destruct detect_fallback; cbn [negb]; [|done];
     destruct (Locale.posix_lookup _ _) as [c|] eqn:Ep;
       [intros [= <-]; by apply posix_lookup_shape in Ep|];
     unfold Locale.windows_lookup;
     destruct (windll h) as [langid|];
       [destruct (windows_locale h !! langid) as [name|];
          [intros [= <-]; rewrite lower_length, lower_idemp;
           split; [apply slice_0_2_length|done]|]|];
     (destruct (getlocale_0 h) as [l|e];
        [intros [= E]; by apply (line_245_shape l)
        |by destruct (isinstance e [TypeError])])).
Qed.

Lemma detect_language_code_shape_witness :
  (String.length "fr" ≤ 2)%nat ∧ Str.lower "fr" = "fr".
Proof.
  exact (detect_language_code_shape
           (Sample.host [("LANG", "  FR_ca.UTF-8")]) PyNone true "fr" eq_refl).
Defined.

(** X3. The host is read only when no string is supplied and fallback is
    enabled: otherwise the result is the same on every host, and nothing
    is raised.  So an empty string gives [None] even where the environment
    names a language. *)
Theorem detect_language_host_independent h h' arg detect_fallback :
  detect_fallback = false ∨ (∃ s, arg = PyStr s) →
  Locale.detect_language h arg detect_fallback
    = Locale.detect_language h' arg detect_fallback ∧
  ∃ l, Locale.detect_language h arg detect_fallback = Ret l.
Proof.
  intros [-> | [s ->]].
  - rewrite !detect_language_no_fallback. eauto.
  - cbn. eauto.
Qed.

Lemma detect_language_host_independent_witness :
  Locale.detect_language (Sample.host [("LC_ALL", "fr_FR.UTF-8")]) (PyStr "") true
    = Locale.detect_language (Sample.host []) (PyStr "") true ∧
  Locale.detect_language (Sample.host []) (PyStr "") true = Ret None.
Proof.
  split; [|reflexivity].
  exact (proj1 (detect_language_host_independent
                  (Sample.host [("LC_ALL", "fr_FR.UTF-8")]) (Sample.host [])
                  (PyStr "") true (or_intror (ex_intro _ "" eq_refl)))).
Defined.

Lemma posix_lookup_none environ variables :
  (∀ v, v ∈ variables → env_lang environ v = None) →
  Locale.posix_lookup environ variables = None.
Proof.
  intros H. rewrite <- (app_nil_r variables). by rewrite posix_lookup_app.
Qed.

(** X4. When none of the four variables is set to something that matches,
    and the Windows table knows the user's UI language, the result is the
    first two characters of the table's locale name in lower case; the OS
    locale is not asked, so its failure does not matter. *)
Theorem detect_language_windows h h' arg langid name :
  (∀ s, arg ≠ PyStr s) →
  (∀ v, v ∈ Locale.posix_variables → env_lang (environ h) v = None) →
  windll h = Some langid →
  windows_locale h !! langid = Some name →
  environ h' = environ h → windll h' = windll h →
  windows_locale h' = windows_locale h →
  Locale.detect_language h arg true
    = Ret (Some (Str.lower (Str.slice_0_2 name))) ∧
  Locale.detect_language h' arg true = Locale.detect_language h arg true.
Proof.
  intros Harg Henv Hdll Htab E1 E2 E3.
  assert (∀ x, (∀ s, arg ≠ PyStr s) → environ x = environ h →
               windll x = windll h → windows_locale x = windows_locale h →
               Locale.detect_language x arg true
                 = Ret (Some (Str.lower (Str.slice_0_2 name)))) as H.
  { intros x _ Ex1 Ex2 Ex3. unfold Locale.detect_language, Locale.windows_lookup.
    rewrite Ex1, Ex2, Ex3, (posix_lookup_none _ _ Henv), Hdll, Htab.
    destruct arg as [|s|z]; [done|by destruct (Harg s)|done]. }
  split; [by apply H|]. by rewrite !H.
Qed.

Lemma detect_language_windows_witness :
  Locale.detect_language
    {| environ := ∅; windll := Some 1036%Z;
       windows_locale := {[1036%Z := "fr_FR"]};
       getlocale_0 := Raise (Exc ValueError Library) |} PyNone true
  = Ret (Some "fr").
Proof.
  refine (proj1 (detect_language_windows
            {| environ := ∅; windll := Some 1036%Z;
               windows_locale := {[1036%Z := "fr_FR"]};
               getlocale_0 := Raise (Exc ValueError Library) |}
            {| environ := ∅; windll := Some 1036%Z;
               windows_locale := {[1036%Z := "fr_FR"]};
               getlocale_0 := Ret None |}
            PyNone 1036%Z "fr_FR" _ _ eq_refl eq_refl eq_refl eq_refl eq_refl)).
  - intros s; discriminate.
  - intros v Hv. unfold Locale.posix_variables in Hv.
    repeat (apply elem_of_cons in Hv as [-> | Hv]; [vm_compute; reflexivity|]).
    inversion Hv.
Defined.

(** X5. When neither the environment nor the Windows table gives a
    language and [locale.getlocale] raises, only a [TypeError] is absorbed
    (the result is [None], and the constructor builds an instance without
    language); any other exception leaves [detect_language] and the
    constructor. *)
Theorem detect_language_getlocale_raises m h arg g e :
  (∀ s, arg ≠ PyStr s) →
  (∀ v, v ∈ Locale.posix_variables → env_lang (environ h) v = None) →
  Locale.windows_lookup h = None →
  getlocale_0 h = Raise e →
  Locale.detect_language h arg true
    = (if isinstance e [TypeError] then Ret None else Raise e) ∧
  __init__ m h arg g
    = (if isinstance e [TypeError]
       then Ret ({| lang := None; _gtobjs := ∅ |}, g) else Raise e).
Proof.
  intros Harg Henv Hwin He.
  assert (Locale.detect_language h arg true
          = (if isinstance e [TypeError] then Ret None else Raise e)) as H.
  { unfold Locale.detect_language.
    rewrite (posix_lookup_none _ _ Henv), Hwin, He.
    destruct arg as [|s|z]; [done|by destruct (Harg s)|done]. }
  split; [done|]. unfold __init__. rewrite H.
  destruct (isinstance e [TypeError]); [|done].
  by destruct (GETTEXT_LOADED m).
Qed.

Lemma detect_language_getlocale_raises_witness :
  __init__ Sample.loaded.1
    {| environ := {["LANG" := "C"]}; windll := None; windows_locale := ∅;
       getlocale_0 := Raise (Exc ValueError Library) |}
    PyNone Sample.loaded.2
  = Raise (Exc ValueError Library).
Proof.
  refine (proj2 (detect_language_getlocale_raises Sample.loaded.1
            {| environ := {["LANG" := "C"]}; windll := None; windows_locale := ∅;
               getlocale_0 := Raise (Exc ValueError Library) |}
            PyNone Sample.loaded.2 (Exc ValueError Library) _ _ eq_refl eq_refl)).
  - intros s; discriminate.
  - intros v Hv. unfold Locale.posix_variables in Hv.
    repeat (apply elem_of_cons in Hv as [-> | Hv]; [vm_compute; reflexivity|]).
    inversion Hv.
Defined.

(** ** The scope of [lang_at], continued *)

Lemma exit_not_swallowed m h v f w : (__exit__ m h (Some v) f w).2 ≠ Ret true.
Proof.
  cbn [__exit__].
  assert ((lang_at_throw v f w).2 ≠ Returned) as H.
  { destruct f as [arg| |l|l|]; cbn [lang_at_throw]; try done.
    - destruct (isinstance v [OSError; KeyError]); [done|].
      unfold leave_try. by destruct (finally_clause l w) as [w' [e|]].
    - unfold leave_try. by destruct (finally_clause l w) as [w' [e|]]. }
  destruct (lang_at_throw v f w) as [w' [f'| |e]]; cbn in *; try done.
  by case_decide.
Qed.

(** X6. [lang_at] never swallows an exception of the body: when the body
    raises, an exception leaves the [with] statement (the body's own, or
    the one [__exit__] raised in its place). *)
Theorem lang_at_never_swallows m h arg body w f w1 w2 e :
  __enter__ m h arg w = (w1, Ret f) →
  body w1 = (w2, Some e) →
  (with_lang_at m h arg body w).2 ≠ None.
Proof.
  intros He Hb. unfold with_lang_at. rewrite He, Hb.
  pose proof (exit_not_swallowed m h e f w2) as H.
  destruct (__exit__ m h (Some e) f w2) as [w3 [[]|e']]; cbn in *; done.
Qed.

Lemma lang_at_never_swallows_witness :
  (with_lang_at Sample.loaded.1 (Sample.host []) (PyStr "fr")
     (Sample.raising (Exc ValueError Body))
     (Sample.en_instance, Sample.en_installed)).2 ≠ None.
Proof.
  eapply (lang_at_never_swallows Sample.loaded.1 (Sample.host []) (PyStr "fr")
            (Sample.raising (Exc ValueError Body))
            (Sample.en_instance, Sample.en_installed)).
  - vm_compute. reflexivity.
  - reflexivity.
Defined.

(** X7. An entry that raises has changed nothing: neither the cache nor
    what is installed. *)
Theorem enter_raises_unchanged m h arg w w' e :
  __enter__ m h arg w = (w', Raise e) → w' = w.
Proof.
  unfold __enter__, lang_at_next.
  destruct (GETTEXT_LOADED m); cbn [negb]; [|by intros [= <-]].
  rewrite detect_language_no_fallback.
  set (l := match arg with PyStr s => _ | _ => _ end). clearbody l.
  destruct w as [self g].
  destruct (_gtobjs self !! l) as [c|] eqn:El; [done|].
  destruct (gettext_translation m 172 (lang self)) as [c|e0]; [done|].
  destruct (isinstance e0 [OSError; KeyError]); [done|].
  unfold leave_try, finally_clause. rewrite El.
  rewrite (bool_decide_eq_false_2 (is_Some None)) by (by intros [? ?]).
  rewrite andb_false_r. by intros [= <-].
Qed.

(** An instance without language; for it gettext raises [AttributeError]. *)
Lemma enter_raises_unchanged_witness :
  __enter__ Sample.loaded.1 (Sample.host []) (PyStr "fr")
    ({| lang := None; _gtobjs := ∅ |}, Sample.loaded.2)
  = (({| lang := None; _gtobjs := ∅ |}, Sample.loaded.2),
     Raise (Exc AttributeError Library)) ∧
  ({| lang := None; _gtobjs := ∅ |}, Sample.loaded.2)
  = ({| lang := None; _gtobjs := ∅ |}, Sample.loaded.2).
Proof.
  split; [vm_compute; reflexivity|].
  apply (enter_raises_unchanged Sample.loaded.1 (Sample.host []) (PyStr "fr")
           ({| lang := None; _gtobjs := ∅ |}, Sample.loaded.2)
           ({| lang := None; _gtobjs := ∅ |}, Sample.loaded.2)
           (Exc AttributeError Library)).
  vm_compute. reflexivity.
Defined.

(** X8. Leaving a scope normally raises [KeyError] exactly when the
    scope's language differs from the instance's, is in the cache, and the
    instance's own language is not. *)
Theorem exit_KeyError_iff m h l self g :
  (__exit__ m h None (Yield179 l) (self, g)).2 = Raise (Exc KeyError (Line 190))
  ↔ l ≠ lang self ∧ is_Some (_gtobjs self !! l) ∧ _gtobjs self !! lang self = None.
Proof.
  cbn [__exit__ lang_at_next]. unfold leave_try, finally_clause.
  destruct (decide (l ≠ lang self)) as [Hne|Heq].
  - rewrite (bool_decide_eq_true_2 _ Hne).
    destruct (_gtobjs self !! l) as [c|] eqn:El.
    + rewrite (bool_decide_eq_true_2 (is_Some (Some c))) by eauto. cbn [andb].
      destruct (_gtobjs self !! lang self) as [c'|]; cbn.
      * split; [done|]. by intros (_ & _ & ?).
      * split; [eauto|done].
    + rewrite (bool_decide_eq_false_2 (is_Some None)) by (by intros [? ?]).
      cbn. split; [done|]. by intros (_ & [? ?] & _).
  - rewrite (bool_decide_eq_false_2 _ Heq). cbn.
    split; [done|]. by intros (? & _).
Qed.

Lemma leave_try_uncached pending l self g :
  _gtobjs self !! l = None →
  leave_try pending l (self, g) =
  ((self, g), match pending with Some e => Raised e | None => Returned end).
Proof.
  intros El. unfold leave_try, finally_clause. rewrite El.
  rewrite (bool_decide_eq_false_2 (is_Some None)) by (by intros [? ?]).
  by rewrite andb_false_r.
Qed.

(** X9. Once an entry has reached the [yield] inside [try], the scope's
    language is in the cache, and a later entry for the same argument, in
    whatever state the globals are and the instance as long as it kept its
    [lang] and its cache entries, no longer calls [gettext.translation]:
    whatever gettext would give or raise by then, the entry installs the
    cached catalog (nothing for the instance's own language) and leaves the
    instance as it is. *)
Theorem second_entry_uses_cache m m' h arg w w1 l :
  GETTEXT_LOADED m' = true →
  __enter__ m h arg w = (w1, Ret (Yield179 l)) →
  ∃ c,
    _gtobjs w1.1 !! l = Some c ∧
    ∀ self2 g2,
      grown w1.1 self2 →
      __enter__ m' h arg (self2, g2) =
      ((self2, if bool_decide (l ≠ lang self2) then install c g2 else g2),
       Ret (Yield179 l)).
Proof.
  intros Hm' He.
  assert (Locale.detect_language h arg false = Ret l ∧
          ∃ c, _gtobjs w1.1 !! l = Some c) as (Hl & c & Hc).
  { revert He. unfold __enter__, lang_at_next.
    destruct (GETTEXT_LOADED m); cbn [negb]; [|done].
    rewrite detect_language_no_fallback.
    set (l0 := match arg with PyStr s => _ | _ => _ end). clearbody l0.
    destruct w as [self g].
    destruct (_gtobjs self !! l0) as [c|] eqn:El.
    - case_bool_decide; intros [= <- <-]; eauto.
    - destruct (gettext_translation m 172 (lang self)) as [c|e].
      + intros [= <- <-]. split; [done|]. exists c. cbn.
        by rewrite lookup_insert_eq.
      + destruct (isinstance e [OSError; KeyError]); [done|].
        by rewrite (leave_try_uncached _ _ _ _ El). }
  exists c. split; [done|]. intros self2 g2 [_ Hsub].
  unfold __enter__, lang_at_next. rewrite Hm', Hl. cbn [negb].
  rewrite (lookup_weaken _ _ _ _ Hc Hsub). by case_bool_decide.
Qed.

(** The second entry runs where every load would fail, and with another
    catalog installed. *)
Lemma second_entry_uses_cache_witness :
  ∃ c,
    <[Some "fr" := Sample.cat_en]> (_gtobjs Sample.en_instance) !! Some "fr"
      = Some c ∧
    ∀ self2 g2,
      grown {| lang := Some "en";
               _gtobjs := <[Some "fr" := Sample.cat_en]>
                            (_gtobjs Sample.en_instance) |} self2 →
      __enter__ {| GETTEXT_LOADED := true;
                   gettext := Some (Sample.gettext_of ∅) |}
        (Sample.host []) (PyStr "fr_CA") (self2, g2) =
      ((self2,
        if bool_decide (Some "fr" ≠ lang self2) then install c g2 else g2),
       Ret (Yield179 (Some "fr"))).
Proof.
  assert (__enter__ Sample.loaded.1 (Sample.host []) (PyStr "fr_CA")
            (Sample.en_instance, Sample.en_installed)
          = (({| lang := Some "en";
                 _gtobjs := <[Some "fr" := Sample.cat_en]>
                              (_gtobjs Sample.en_instance) |},
              install Sample.cat_en Sample.en_installed),
             Ret (Yield179 (Some "fr")))) as He
    by (vm_compute; reflexivity).
  exact (second_entry_uses_cache Sample.loaded.1
           {| GETTEXT_LOADED := true; gettext := Some (Sample.gettext_of ∅) |}
           (Sample.host []) (PyStr "fr_CA")
           (Sample.en_instance, Sample.en_installed) _ (Some "fr")
           eq_refl He).
Defined.

(** X10. Where [GETTEXT_LOADED] is false the scope is transparent: the
    [with] statement does what its body does, and the body's exception, if
    any, leaves it unchanged. *)
Theorem lang_at_transparent_without_gettext m h arg body w :
  GETTEXT_LOADED m = false →
  with_lang_at m h arg body w = body w.
Proof.
  intros Hm. unfold with_lang_at, __enter__, lang_at_next. rewrite Hm. cbn.
  destruct (body w) as [w2 [e|]]; cbn; [|reflexivity].
  by rewrite decide_True by done.
Qed.

Lemma lang_at_transparent_without_gettext_witness :
  with_lang_at (module_body None Sample.fresh).1 (Sample.host []) (PyStr "fr")
    (Sample.raising (Exc OSError Body))
    (Sample.unpickled, (module_body None Sample.fresh).2)
  = ((Sample.unpickled, (module_body None Sample.fresh).2),
     Some (Exc OSError Body)).
Proof.
  exact (lang_at_transparent_without_gettext
           (module_body None Sample.fresh).1 (Sample.host []) (PyStr "fr")
           (Sample.raising (Exc OSError Body))
           (Sample.unpickled, (module_body None Sample.fresh).2) eq_refl).
Defined.

(** ** What gets installed *)

Lemma installs_since_refl g : installs_since g g [].
Proof. by split. Qed.

Lemma installs_since_install c g : installs_since g (install c g) [c].
Proof. by split. Qed.

Lemma installs_since_trans g g' g'' n1 n2 :
  installs_since g g' n1 → installs_since g' g'' n2 →
  installs_since g g'' (n2 ++ n1).
Proof.
  intros [L1 I1] [L2 I2]. split.
  - by rewrite L2, L1, app_assoc.
  - rewrite I2. destruct n2 as [|c n2]; [|done]. by rewrite I1.
Qed.

Lemma installs_from_cache_refl w : installs_from_cache w w.
Proof. exists []. split; [apply installs_since_refl|constructor]. Qed.

Lemma installs_from_cache_trans w w' w'' :
  installs_from_cache w w' → grown w'.1 w''.1 → installs_from_cache w' w'' →
  installs_from_cache w w''.
Proof.
  intros (n1 & S1 & F1) [_ Hsub] (n2 & S2 & F2).
  exists (n2 ++ n1)%list. split; [by eapply installs_since_trans|].
  apply Forall_app. split; [done|].
  eapply Forall_impl; [exact F1|]. intros c [k Hk]. exists k.
  by eapply lookup_weaken.
Qed.

Lemma finally_clause_installs l w : installs_from_cache w (finally_clause l w).1.
Proof.
  destruct w as [self g]. unfold finally_clause.
  destruct (_ && _); [|apply installs_from_cache_refl].
  destruct (_gtobjs self !! lang self) as [c|] eqn:E;
    [|apply installs_from_cache_refl].
  exists [c]. split; [apply installs_since_install|].
  constructor; [|constructor]. by exists (lang self).
Qed.

Lemma leave_try_installs pending l w :
  installs_from_cache w (leave_try pending l w).1.
Proof.
  unfold leave_try. pose proof (finally_clause_installs l w) as H.
  by destruct (finally_clause l w) as [w' [e|]].
Qed.

Lemma lang_at_throw_installs value f w :
  installs_from_cache w (lang_at_throw value f w).1.
Proof.
  destruct f as [arg| |l|l|]; cbn [lang_at_throw];
    try apply installs_from_cache_refl; try apply leave_try_installs.
  destruct (isinstance value [OSError; KeyError]);
    [apply installs_from_cache_refl|apply leave_try_installs].
Qed.

Lemma lang_at_next_installs m h f w :
  installs_from_cache w (lang_at_next m h f w).1.
Proof.
  destruct f as [arg| |l|l|]; cbn [lang_at_next];
    try apply installs_from_cache_refl; try apply leave_try_installs.
  destruct (GETTEXT_LOADED m); cbn [negb]; [|apply installs_from_cache_refl].
  rewrite detect_language_no_fallback.
  set (l := match arg with PyStr s => _ | _ => _ end). clearbody l.
  destruct w as [self g].
  destruct (_gtobjs self !! l) as [c|] eqn:El.
  - case_bool_decide; [|apply installs_from_cache_refl].
    exists [c]. split; [apply installs_since_install|].
    constructor; [|constructor]. by exists l.
  - destruct (gettext_translation m 172 (lang self)) as [c|e].
    + exists [c]. split; [apply installs_since_install|].
      constructor; [|constructor]. exists l. cbn. by rewrite lookup_insert_eq.
    + destruct (isinstance e [OSError; KeyError]);
        [apply installs_from_cache_refl|apply leave_try_installs].
Qed.

Lemma run_op_installs m h o w : installs_from_cache w (run_op m h o w).
Proof.
  destruct o as [arg|value f|f| |l fb]; cbn [run_op];
    try apply installs_from_cache_refl.
  - unfold __enter__. pose proof (lang_at_next_installs m h (Created arg) w) as H.
    by destruct (lang_at_next m h (Created arg) w) as [w' [f| |e]].
  - destruct value as [v|]; cbn [__exit__].
    + pose proof (lang_at_throw_installs v f w) as H.
      by destruct (lang_at_throw v f w) as [w' [f'| |e]].
    + pose proof (lang_at_next_installs m h f w) as H.
      by destruct (lang_at_next m h f w) as [w' [f'| |e]].
  - destruct f as [arg| |l|l|]; cbn [lang_at_close];
      try apply installs_from_cache_refl.
    all: match goal with
         | |- context [lang_at_throw ?v ?f ?w0] =>
             pose proof (lang_at_throw_installs v f w0) as H;
             by destruct (lang_at_throw v f w0) as [w' [f'| |e]]
         end.
  - unfold getstate_call. cbn [fst]. rewrite of_dict_dict. cbn.
    destruct w. apply installs_from_cache_refl.
Qed.

Lemma run_ops_grown m h os w : grown w.1 (run_ops m h os w).1.
Proof.
  revert w. induction os as [|o os IH]; intros w; [reflexivity|].
  cbn [run_ops foldl]. etrans; [apply (run_op_grown m h o)|apply IH].
Qed.

Lemma run_ops_installs m h os w : installs_from_cache w (run_ops m h os w).
Proof.
  revert w. induction os as [|o os IH]; intros w;
    [apply installs_from_cache_refl|].
  cbn [run_ops foldl].
  eapply installs_from_cache_trans;
    [apply (run_op_installs m h o)|apply run_ops_grown|apply IH].
Qed.

(** X11. Whatever operations run on an instance, every catalog that gets
    installed meanwhile is one that the instance's cache holds afterwards:
    [lang_at] installs from the cache only. *)
Theorem operations_install_from_cache m h os w :
  ∃ new,
    installs_since w.2 (run_ops m h os w).2 new ∧
    Forall (fun c => ∃ k, _gtobjs (run_ops m h os w).1 !! k = Some c) new.
Proof. exact (run_ops_installs m h os w). Qed.

(** ** The cache holds the default language only *)

Lemma enter_fst m h arg w :
  (__enter__ m h arg w).1 = (lang_at_next m h (Created arg) w).1.
Proof.
  unfold __enter__. by destruct (lang_at_next m h (Created arg) w) as [w' [f| |e]].
Qed.

Lemma exit_fst m h value f w :
  (__exit__ m h value f w).1 =
  match value with
  | Some v => (lang_at_throw v f w).1
  | None => (lang_at_next m h f w).1
  end.
Proof.
  destruct value as [v|]; cbn [__exit__].
  - by destruct (lang_at_throw v f w) as [w' [f'| |e]].
  - by destruct (lang_at_next m h f w) as [w' [f'| |e]].
Qed.

Lemma close_fst f w :
  (lang_at_close f w).1 = w ∨
  (lang_at_close f w).1 = (lang_at_throw (Exc GeneratorExit Interpreter) f w).1.
Proof.
  destruct f as [arg| |l|l|]; cbn [lang_at_close]; try (by left); right.
  all: by destruct (lang_at_throw _ _ w) as [w' [f'| |e]].
Qed.

Lemma lang_at_next_default_only m gt h f w :
  gettext m = Some gt → default_only gt w.1 →
  default_only gt (lang_at_next m h f w).1.1.
Proof.
  intros Hgt Hd.
  destruct f as [arg| |l|l|]; cbn [lang_at_next];
    try done; try (by rewrite leave_try_self).
  destruct (GETTEXT_LOADED m); cbn [negb]; [|done].
  rewrite detect_language_no_fallback.
  set (l := match arg with PyStr s => _ | _ => _ end). clearbody l.
  destruct w as [self g].
  destruct (_gtobjs self !! l) as [c|] eqn:El; [by case_bool_decide|].
  unfold gettext_translation. rewrite Hgt.
  destruct (translation gt (lang self)) as [c|e] eqn:Et.
  - intros k c'. cbn. destruct (decide (l = k)) as [->|Hne].
    + rewrite lookup_insert_eq. by intros [= <-].
    + rewrite lookup_insert_ne by done. apply Hd.
  - destruct (isinstance e [OSError; KeyError]); [done|].
    by rewrite (leave_try_uncached _ _ _ _ El).
Qed.

Lemma run_op_default_only m gt h o w :
  gettext m = Some gt → default_only gt w.1 →
  default_only gt (run_op m h o w).1.
Proof.
  intros Hgt Hd.
  destruct o as [arg|value f|f| |l fb]; cbn [run_op]; try done.
  - rewrite enter_fst. by apply lang_at_next_default_only.
  - rewrite exit_fst. destruct value as [v|].
    + by rewrite lang_at_throw_self.
    + by apply lang_at_next_default_only.
  - destruct (close_fst f w) as [-> | ->]; [done|].
    by rewrite lang_at_throw_self.
Qed.

Lemma init_default_only m gt h language g w :
  gettext m = Some gt → __init__ m h language g = Ret w → default_only gt w.1.
Proof.
  intros Hgt. unfold __init__, gettext_translation. rewrite Hgt.
  destruct (Locale.detect_language h language true) as [l|e]; [|done].
  destruct (GETTEXT_LOADED m); cbn [negb]; [|by intros [= <-] k c].
  destruct (Str.truthy_opt l); [|by intros [= <-] k c].
  destruct (translation gt l) as [c|e] eqn:Et.
  - intros [= <-] k c'. cbn. destruct (decide (l = k)) as [->|Hne].
    + rewrite lookup_insert_eq. by intros [= <-].
    + by rewrite lookup_insert_ne.
  - destruct (isinstance e [OSError]); [|done]. by intros [= <-] k c.
Qed.

Lemma run_ops_default_only m gt h os w :
  gettext m = Some gt → default_only gt w.1 →
  default_only gt (run_ops m h os w).1.
Proof.
  intros Hgt. revert w. induction os as [|o os IH]; intros w Hd; [done|].
  cbn [run_ops foldl]. apply IH. by apply run_op_default_only.
Qed.

(** X12. On an instance that the constructor made, whatever scopes are
    entered and left, every catalog in the cache, under whatever language
    it is filed, is the catalog that gettext gives for the instance's own
    language. *)
Theorem cache_holds_default_only m gt h language g w os :
  gettext m = Some gt →
  __init__ m h language g = Ret w →
  default_only gt (run_ops m h os w).1.
Proof.
  intros Hgt Hinit. apply run_ops_default_only; [done|].
  by apply (init_default_only m gt h language g).
Qed.

Lemma cache_holds_default_only_witness :
  _gtobjs (run_ops Sample.loaded.1 (Sample.host [])
             [Enter (PyStr "fr"); Exit None (Yield179 (Some "fr"))]
             (Sample.en_instance, Sample.en_installed)).1 !! Some "fr"
    = Some Sample.cat_en ∧
  translation (Sample.gettext_of Sample.i18n) (Some "en") = Ret Sample.cat_en.
Proof.
  split; [vm_compute; reflexivity|].
  refine (cache_holds_default_only Sample.loaded.1
            (Sample.gettext_of Sample.i18n) (Sample.host []) (PyStr "en")
            Sample.loaded.2 (Sample.en_instance, Sample.en_installed)
            [Enter (PyStr "fr"); Exit None (Yield179 (Some "fr"))]
            eq_refl _ (Some "fr") Sample.cat_en _).
  - vm_compute. reflexivity.
  - vm_compute. reflexivity.
Defined.

(** X13. On an instance that the constructor made, whatever scopes are
    entered and left and whatever languages they ask for, no catalog other
    than that of the instance's own language is ever installed. *)
Theorem scopes_install_default_only m gt h language g w os :
  gettext m = Some gt →
  __init__ m h language g = Ret w →
  ∃ new,
    installs_since w.2 (run_ops m h os w).2 new ∧
    Forall (fun c => translation gt (lang w.1) = Ret c) new.
Proof.
  intros Hgt Hinit.
  destruct (run_ops_installs m h os w) as (new & Hs & Hf).
  exists new. split; [done|].
  eapply Forall_impl; [exact Hf|]. intros c [k Hk]. cbn beta in Hk.
  destruct (run_ops_grown m h os w) as [<- _].
  eapply run_ops_default_only; [done| |exact Hk].
  by apply (init_default_only m gt h language g).
Qed.

Lemma scopes_install_default_only_witness :
  ∃ new,
    installs_since Sample.en_installed
      (run_ops Sample.loaded.1 (Sample.host [])
         [Enter (PyStr "fr"); Exit None (Yield179 (Some "fr"))]
         (Sample.en_instance, Sample.en_installed)).2 new ∧
    Forall (fun c => translation (Sample.gettext_of Sample.i18n) (Some "en")
                     = Ret c) new.
Proof.
  apply (scopes_install_default_only Sample.loaded.1
           (Sample.gettext_of Sample.i18n) (Sample.host []) (PyStr "en")
           Sample.loaded.2 (Sample.en_instance, Sample.en_installed)
           [Enter (PyStr "fr"); Exit None (Yield179 (Some "fr"))]).
  - reflexivity.
  - vm_compute. reflexivity.
Defined.

(** X14. Once the module body has run, with or without gettext, [_] stays
    callable through every operation on an instance: it is never left
    unbound. *)
Theorem underscore_stays_callable importable g0 h os self t :
  ∃ s,
    call_underscore
      (run_ops (module_body importable g0).1 h os
         (self, (module_body importable g0).2)).2 t = Ret s.
Proof.
  destruct (run_ops_installs (module_body importable g0).1 h os
              (self, (module_body importable g0).2)) as (new & [_ Hi] & _).
  unfold call_underscore. rewrite Hi.
  destruct new as [|c new]; [|eauto].
  destruct importable as [gt|]; cbn; eauto.
Qed.

Lemma exit_equation m h l r f self g c :
  f = Yield179 l ∨ f = Yield184 l →
  _gtobjs self !! lang self = Some c →
  (∀ e, r = Some e → isinstance e [OSError; KeyError] = false) →
  __exit__ m h r f (self, g) =
  ((self,
    if bool_decide (l ≠ lang self) && bool_decide (is_Some (_gtobjs self !! l))
    then install c g else g),
   Ret false).
Proof.
  intros Hf Hc Hr.
  assert (finally_clause l (self, g) =
          ((self,
            if bool_decide (l ≠ lang self)
               && bool_decide (is_Some (_gtobjs self !! l))
            then install c g else g), None)) as Hfin.
  { unfold finally_clause. rewrite Hc. by destruct (_ && _). }
  destruct r as [e|], Hf as [-> | ->];
    cbn [__exit__ lang_at_throw lang_at_next];
    try rewrite (Hr e eq_refl); unfold leave_try; rewrite Hfin;
    try rewrite decide_True by done; reflexivity.
Qed.

(** X15. Leaving a scope from either [yield] of the [try] statement, in
    whatever state the body left instance and globals, provided the catalog
    of the instance's own language is in the cache and the body ended
    normally or with an exception other than [IOError] and [KeyError]:
    [__exit__] raises nothing and swallows nothing; when the scope's
    language differs from the instance's and is cached it installs the
    catalog of the instance's own language, otherwise it installs nothing
    and what the body left installed stays. *)
Theorem exit_installs_default m h l r f self g c :
  f = Yield179 l ∨ f = Yield184 l →
  _gtobjs self !! lang self = Some c →
  (∀ e, r = Some e → isinstance e [OSError; KeyError] = false) →
  __exit__ m h r f (self, g) =
  ((self,
    if bool_decide (l ≠ lang self) && bool_decide (is_Some (_gtobjs self !! l))
    then install c g else g),
   Ret false).
Proof. apply exit_equation. Qed.

(** The body installed the French catalog of another instance: a scope for
    "fr" on the English instance puts the English one back, a scope for
    "en" does not. *)
Lemma exit_installs_default_witness :
  __exit__ Sample.loaded.1 (Sample.host []) None (Yield179 (Some "fr"))
    ({| lang := Some "en";
        _gtobjs := <[Some "fr" := Sample.cat_en]> {[Some "en" := Sample.cat_en]} |},
     Sample.fr_installed)
  = (({| lang := Some "en";
         _gtobjs := <[Some "fr" := Sample.cat_en]> {[Some "en" := Sample.cat_en]} |},
      install Sample.cat_en Sample.fr_installed), Ret false) ∧
  __exit__ Sample.loaded.1 (Sample.host []) None (Yield179 (Some "en"))
    (Sample.en_instance, Sample.fr_installed)
  = ((Sample.en_instance, Sample.fr_installed), Ret false).
Proof.
  split.
  - etrans.
    + apply (exit_installs_default Sample.loaded.1 (Sample.host []) (Some "fr")
               None (Yield179 (Some "fr"))
               {| lang := Some "en";
                  _gtobjs := <[Some "fr" := Sample.cat_en]>
                               {[Some "en" := Sample.cat_en]} |}
               Sample.fr_installed Sample.cat_en).
      * by left.
      * vm_compute. reflexivity.
      * intros e; discriminate.
    + vm_compute. reflexivity.
  - etrans.
    + apply (exit_installs_default Sample.loaded.1 (Sample.host []) (Some "en")
               None (Yield179 (Some "en")) Sample.en_instance
               Sample.fr_installed Sample.cat_en).
      * by left.
      * vm_compute. reflexivity.
      * intros e; discriminate.
    + vm_compute. reflexivity.
Defined.



(** ** Pickling, continued *)

(** X17. The state that [__getstate__] hands to pickle is the [lang]
    attribute alone: no catalog is ever pickled. *)
Theorem getstate_is_lang_only self :
  __getstate__ (__dict__ self) = Ret {["lang" := AttrLang (lang self)]}.
Proof.
  unfold __getstate__, __dict__.
  rewrite lookup_insert_ne by done. rewrite lookup_insert_eq.
  rewrite delete_insert_ne by done. rewrite delete_insert_eq.
  by rewrite delete_empty.
Qed.
